(** * Verification of the report-summary engine of openshift-health-dashboard

    Shallow embedding of the Go code under [app/server/utils]:
    - [report_parser.go], second revision of [ParseAsciiDocExecutiveSummary]
      (the one reading the file with [os.ReadFile]); it calls the helpers
      [CountAllStatusItems], [CountStatusByCategory], [CalculateCategoryScore]
      and [CountNoChangeItems], which exist only in the revision of
      [asciidoc_helpers.go] stored as [src/unnamed/part_007]; that revision is
      modelled in [Module Part007];
    - the named [src/app/server/utils/asciidoc_helpers.go], modelled in
      [Module AsciidocHelpers] for the functions whose behaviour differs.

    Modelling conventions.
    - A Go [string] is a [String.string]; lines are assumed to be ASCII
      (for [strings.ToLower] only ASCII letters are mapped).
    - A Go [int] count is a [nat] (the counts are bounded by the number of
      lines, so the [int] arithmetic never wraps); a score is a [Z].
    - A Go [float64] quotient of two small integers is a rational [Q].
    - A Go [[]string] is a [slice]: [NilSlice] is the nil slice (serialised
      as JSON [null]), [Slice xs] a non-nil slice. *)

From Stdlib Require Import Ascii String List Bool Arith Lia ZArith QArith.
From Stdlib Require Import Numbers.DecimalString.
From stdpp Require Import base gmap strings.

Import ListNotations.
Open Scope string_scope.

(* ------------------------------------------------------------------ *)
(** ** Go's [strings] package, on ASCII strings *)

Module GoStrings.

(** [strings.HasPrefix s prefix] *)
Fixpoint HasPrefix (s prefix : string) : bool :=
  match prefix, s with
  | EmptyString, _ => true
  | String _ _, EmptyString => false
  | String p prefix', String c s' => Ascii.eqb p c && HasPrefix s' prefix'
  end.

(** [strings.Contains s substr] *)
Fixpoint Contains (s substr : string) : bool :=
  HasPrefix s substr ||
  match s with
  | EmptyString => false
  | String _ s' => Contains s' substr
  end.

(** [strings.HasSuffix s suffix] *)
Fixpoint HasSuffix (s suffix : string) : bool :=
  String.eqb s suffix ||
  match s with
  | EmptyString => false
  | String _ s' => HasSuffix s' suffix
  end.

(** [unicode.IsSpace] on an ASCII byte: '\t', '\n', '\v', '\f', '\r', ' '. *)
Definition IsSpace (c : ascii) : bool :=
  let n := nat_of_ascii c in ((9 <=? n) && (n <=? 13) || (n =? 32))%nat.

Fixpoint TrimLeftSpace (s : string) : string :=
  match s with
  | EmptyString => EmptyString
  | String c s' => if IsSpace c then TrimLeftSpace s' else s
  end.

Fixpoint rev_string (s : string) (acc : string) : string :=
  match s with
  | EmptyString => acc
  | String c s' => rev_string s' (String c acc)
  end.

(** [strings.TrimSpace]: leading and trailing white space removed. *)
Definition TrimSpace (s : string) : string :=
  rev_string (TrimLeftSpace (rev_string (TrimLeftSpace s) EmptyString)) EmptyString.

(** [strings.ToLower] on ASCII. *)
Definition lower_ascii (c : ascii) : ascii :=
  let n := nat_of_ascii c in
  if ((65 <=? n) && (n <=? 90))%nat then ascii_of_nat (n + 32) else c.

Fixpoint ToLower (s : string) : string :=
  match s with
  | EmptyString => EmptyString
  | String c s' => String (lower_ascii c) (ToLower s')
  end.

(** [strings.TrimPrefix s prefix] *)
Definition TrimPrefix (s prefix : string) : string :=
  if HasPrefix s prefix then substring (String.length prefix) (String.length s) s
  else s.

(** [strings.Split s sep] for a one-character separator. *)
Fixpoint split_acc (sep : ascii) (s : string) (cur : string) : list string :=
  match s with
  | EmptyString => [rev_string cur EmptyString]
  | String c s' =>
      if Ascii.eqb c sep then rev_string cur EmptyString :: split_acc sep s' EmptyString
      else split_acc sep s' (String c cur)
  end.

Definition Split (s : string) (sep : ascii) : list string := split_acc sep s EmptyString.

(** [fmt.Sprintf("%d", n)] for [n >= 0]. *)
Definition itoa (n : nat) : string := NilEmpty.string_of_uint (Nat.to_uint n).

(** [strings.ToUpper] on ASCII. *)
Definition upper_ascii (c : ascii) : ascii :=
  let n := nat_of_ascii c in
  if ((97 <=? n) && (n <=? 122))%nat then ascii_of_nat (n - 32) else c.

Fixpoint ToUpper (s : string) : string :=
  match s with
  | EmptyString => EmptyString
  | String c s' => String (upper_ascii c) (ToUpper s')
  end.

(** The text before and after the first [sep], if there is one. *)
Fixpoint cut_at (sep : ascii) (s : string) : option (string * string) :=
  match s with
  | EmptyString => None
  | String c s' =>
      if Ascii.eqb c sep then Some (EmptyString, s')
      else match cut_at sep s' with
           | Some (a, b) => Some (String c a, b)
           | None => None
           end
  end.

(** [strings.SplitN(s, sep, 2)] for a one-character separator. *)
Definition SplitN2 (s : string) (sep : ascii) : list string :=
  match cut_at sep s with
  | Some (a, b) => [a; b]
  | None => [s]
  end.

End GoStrings.

Import GoStrings.

(* ------------------------------------------------------------------ *)
(** ** Go slices of strings *)

Inductive slice : Type :=
| NilSlice : slice
| Slice : list string -> slice.

Definition slice_elems (s : slice) : list string :=
  match s with NilSlice => [] | Slice xs => xs end.

(** [len(s)] *)
Definition slice_len (s : slice) : nat := List.length (slice_elems s).

(** [append(s, x)]: always a non-nil slice. *)
Definition slice_append (s : slice) (x : string) : slice := Slice (slice_elems s ++ [x]).

(** [append(s, xs...)]: [s] itself when [xs] is empty. *)
Definition slice_append_all (s : slice) (xs : slice) : slice :=
  match slice_elems xs with [] => s | es => Slice (slice_elems s ++ es) end.

(* ------------------------------------------------------------------ *)
(** ** Functions that are the same in both revisions of asciidoc_helpers.go *)

(** [IsValidAsciiDocFile] *)
Definition IsValidAsciiDocFile (filename : string) : bool :=
  HasSuffix filename ".adoc" || HasSuffix filename ".asciidoc".

(* ------------------------------------------------------------------ *)
(** ** The regular expressions of the helpers

    Each [regexp.FindStringSubmatch] is written out as a leftmost-first
    matcher (Go's RE2 semantics): the match starting at the smallest offset
    is returned, with the submatch the pattern captures there. *)

Module Regex.

Fixpoint drop (n : nat) (s : string) : string :=
  match n, s with
  | O, _ => s
  | S _, EmptyString => EmptyString
  | S n', String _ s' => drop n' s'
  end.

(** Longest prefix of characters satisfying [p], and the rest. *)
Fixpoint take_while (p : ascii -> bool) (s : string) : string * string :=
  match s with
  | EmptyString => (EmptyString, EmptyString)
  | String c s' =>
      if p c then let (run, rest) := take_while p s' in (String c run, rest)
      else (EmptyString, s)
  end.

Definition nonempty (s : string) : bool := negb (String.eqb s EmptyString).

Definition in_range (lo hi : nat) (c : ascii) : bool :=
  let n := nat_of_ascii c in ((lo <=? n) && (n <=? hi))%nat.

(** [\d] *)
Definition is_digit (c : ascii) : bool := in_range 48 57 c.
(** [\s] of RE2: [[\t\n\f\r ]] *)
Definition is_re_space (c : ascii) : bool :=
  let n := nat_of_ascii c in ((n =? 9) || (n =? 10) || (n =? 12) || (n =? 13) || (n =? 32))%nat.
Definition is_alnum_ (c : ascii) : bool :=
  in_range 65 90 c || in_range 97 122 c || is_digit c || Ascii.eqb c "_"%char.
(** [[a-zA-Z0-9_-]] *)
Definition is_ident (c : ascii) : bool := is_alnum_ c || Ascii.eqb c "-"%char.
(** [[A-Za-z0-9_\s]] *)
Definition is_name_char (c : ascii) : bool := is_alnum_ c || is_re_space c.
(** ['] or the double quote (byte 34) *)
Definition is_quote (c : ascii) : bool := Ascii.eqb c "'"%char || Ascii.eqb c (ascii_of_nat 34).
(** [.]: any character but a newline *)
Definition is_dot (c : ascii) : bool := negb (Ascii.eqb c (ascii_of_nat 10)).

(** Scan the start offsets left to right, first success wins. *)
Fixpoint leftmost {A} (at_ : string -> option A) (s : string) : option A :=
  match at_ s with
  | Some a => Some a
  | None => match s with EmptyString => None | String _ s' => leftmost at_ s' end
  end.

(** [<<([^>]+)>>], at one offset: group 1. *)
Definition xref_at (s : string) : option string :=
  if HasPrefix s "<<" then
    let (run, rest) := take_while (fun c => negb (Ascii.eqb c ">"%char)) (drop 2 s) in
    if nonempty run && HasPrefix rest ">>" then Some run else None
  else None.
Definition FindXref (s : string) : option string := leftmost xref_at s.

(** [(\d+)%], at one offset. *)
Definition percent_at (s : string) : option string :=
  let (ds, rest) := take_while is_digit s in
  if nonempty ds && HasPrefix rest "%" then Some ds else None.
Definition FindPercent (s : string) : option string := leftmost percent_at s.

(** [\*NAME\*:\s+(\d+)%] with [NAME] = [regexp.QuoteMeta(categoryName)]. *)
Definition category_at (name : string) (s : string) : option string :=
  let lit := "*" ++ name ++ "*:" in
  if HasPrefix s lit then
    let (ws, r1) := take_while is_re_space (drop (String.length lit) s) in
    let (ds, r2) := take_while is_digit r1 in
    if nonempty ws && nonempty ds && HasPrefix r2 "%" then Some ds else None
  else None.
Definition FindCategory (name s : string) : option string := leftmost (category_at name) s.

(** [Q([^Q]+)Q|cluster\s+([a-zA-Z0-9_-]+)], where [Q] is the class of the
    single and the double quote character, at one offset:
    the pair (group 1, group 2), an unmatched group being the empty string. *)
Definition cluster_alt2 (s : string) : option (string * string) :=
  if HasPrefix s "cluster" then
    let (ws, r) := take_while is_re_space (drop 7 s) in
    let (id, _) := take_while is_ident r in
    if nonempty ws && nonempty id then Some (EmptyString, id) else None
  else None.
Definition cluster_at (s : string) : option (string * string) :=
  match s with
  | String q rest =>
      if is_quote q then
        let (run, rest') := take_while (fun c => negb (is_quote c)) rest in
        if nonempty run && nonempty rest' then Some (run, EmptyString) else cluster_alt2 s
      else cluster_alt2 s
  | EmptyString => None
  end.
Definition FindCluster (s : string) : option (string * string) := leftmost cluster_at s.

(** [conducted.*?([A-Za-z0-9_\s]+)'s]: after [conducted], the lazy [.*?]
    tries the group at each later offset in turn, never crossing a newline. *)
Fixpoint customer_lazy (s : string) : option string :=
  let (run, rest) := take_while is_name_char s in
  if nonempty run && HasPrefix rest "'s" then Some run
  else match s with
       | EmptyString => None
       | String c s' => if is_dot c then customer_lazy s' else None
       end.
Definition customer_at (s : string) : option string :=
  if HasPrefix s "conducted" then customer_lazy (drop 9 s) else None.
Definition FindCustomer (s : string) : option string := leftmost customer_at s.

(** [strconv.Atoi] on a string of decimal digits (error ignored): the value,
    saturated at the largest [int] on a range error. *)
Fixpoint digits_value (s : string) (acc : Z) : Z :=
  match s with
  | EmptyString => acc
  | String c s' => digits_value s' (10 * acc + Z.of_nat (nat_of_ascii c - 48))%Z
  end.
Definition Atoi (ds : string) : Z := Z.min (digits_value ds 0) (2 ^ 63 - 1)%Z.

(** [[A-Fa-f0-9]] *)
Definition is_hex (c : ascii) : bool := in_range 65 70 c || in_range 97 102 c || is_digit c.

(** [{set:cellbgcolor:(#[A-Fa-f0-9]+)}], at one offset: group 1 ([{] and [}]
    are literal in RE2 when they do not form a repetition). *)
Definition status_cell_at (s : string) : option string :=
  if HasPrefix s "{set:cellbgcolor:#" then
    let (run, rest) := take_while is_hex (drop 18 s) in
    if nonempty run && HasPrefix rest "}" then Some ("#" ++ run) else None
  else None.
Definition FindStatusCell (s : string) : option string := leftmost status_cell_at s.

End Regex.

Import Regex.

Module AsciidocHelpers.

(** [GenerateDescription] of [src/app/server/utils/asciidoc_helpers.go]. *)
Definition GenerateDescription (categoryName : string) (score : Z) : string :=
  if (90 <=? score)%Z then categoryName ++ " is excellent with best practices in place."
  else if (80 <=? score)%Z then categoryName ++ " is well-configured with only minor improvements needed."
  else if (70 <=? score)%Z then categoryName ++ " meets most requirements but has some areas that could be improved."
  else if (60 <=? score)%Z then categoryName ++ " has several areas that need attention to meet best practices."
  else categoryName ++ " requires significant improvements to ensure stability and security.".


(** [ExtractClusterName] of [asciidoc_helpers.go]: literal fallback. *)
Fixpoint ExtractClusterName (lines : list string) : string :=
  match lines with
  | [] => "OpenShift Cluster"
  | line :: rest =>
      if Contains line "cluster" then
        match FindCluster line with
        | Some (g1, g2) =>
            if nonempty g1 then g1
            else if nonempty g2 then g2
            else ExtractClusterName rest
        | None => ExtractClusterName rest
        end
      else ExtractClusterName rest
  end.

(** [ExtractCustomerName] of [asciidoc_helpers.go]: literal fallback. *)
Fixpoint ExtractCustomerName (lines : list string) : string :=
  match lines with
  | [] => "Your Company"
  | line :: rest =>
      if Contains line "conducted" && Contains line "health check" then
        match FindCustomer line with
        | Some g => TrimSpace g
        | None => ExtractCustomerName rest
        end
      else ExtractCustomerName rest
  end.


(** [CountStatusByColor]: the three patterns are literals, so
    [MatchString] is [strings.Contains]. *)
Fixpoint count_by_color_loop (ls : list string) (required recommended advisory : nat)
  : nat * nat * nat :=
  match ls with
  | [] => (required, recommended, advisory)
  | line :: rest =>
      if Contains line "Changes Required" && Contains line "Description" then
        count_by_color_loop rest required recommended advisory
      else if Contains line "Changes Recommended" && Contains line "Description" then
        count_by_color_loop rest required recommended advisory
      else if Contains line "Advisory" && Contains line "Description" then
        count_by_color_loop rest required recommended advisory
      else
        count_by_color_loop rest
          (if Contains line "{set:cellbgcolor:#FF0000}" then S required else required)
          (if Contains line "{set:cellbgcolor:#FEFE20}" then S recommended else recommended)
          (if Contains line "{set:cellbgcolor:#80E5FF}" then S advisory else advisory)
  end.

Definition CountStatusByColor (lines : list string) : nat * nat * nat :=
  count_by_color_loop lines 0 0 0.

(** The six counters of [CalculateScoreFromStatusCounts]. *)
Record Tally := {
  totalItems : nat; requiredChanges : nat; recommendedChanges : nat;
  advisoryT : nat; noChanges : nat; notApplicableT : nat }.

Definition zero_tally : Tally := Build_Tally 0 0 0 0 0 0.

(** The [switch colorCode] after [totalItems++]. *)
Definition tally_color (colorCode : string) (t : Tally) : Tally :=
  let '(Build_Tally tot r rc a n na) := t in
  if String.eqb colorCode "#FF0000" then Build_Tally (S tot) (S r) rc a n na
  else if String.eqb colorCode "#FEFE20" then Build_Tally (S tot) r (S rc) a n na
  else if String.eqb colorCode "#80E5FF" then Build_Tally (S tot) r rc (S a) n na
  else if String.eqb colorCode "#00FF00" then Build_Tally (S tot) r rc a (S n) na
  else if String.eqb colorCode "#A6B9BF" then Build_Tally (S tot) r rc a n (S na)
  else Build_Tally (S tot) r rc a n na.

Fixpoint tally_loop (ls : list string) (t : Tally) : Tally :=
  match ls with
  | [] => t
  | line :: rest =>
      match FindStatusCell line with
      | Some code =>
          if Contains line "Changes Required" || Contains line "Changes Recommended" ||
             Contains line "N/A" || Contains line "Advisory" || Contains line "No Change"
          then tally_loop rest t
          else tally_loop rest (tally_color (ToUpper code) t)
      | None => tally_loop rest t
      end
  end.

(** [CalculateScoreFromStatusCounts] of [asciidoc_helpers.go]. *)
Definition CalculateScoreFromStatusCounts (lines : list string) : Q :=
  let t := tally_loop lines zero_tally in
  if (totalItems t =? 0)%nat then
    let '(requiredCount, recommendedCount, advisoryCount) := CountStatusByColor lines in
    let totalRelevantItems := (requiredCount + recommendedCount + advisoryCount + noChanges t)%nat in
    if (totalRelevantItems =? 0)%nat then 75%Q
    else (inject_Z (Z.of_nat (noChanges t * 100 + advisoryCount * 80 + recommendedCount * 50)) /
          inject_Z (Z.of_nat totalRelevantItems))%Q
  else
    let validItems := (totalItems t - notApplicableT t)%nat in
    if (validItems =? 0)%nat then 100%Q
    else (inject_Z (Z.of_nat (noChanges t * 100 + advisoryT t * 80 + recommendedChanges t * 50)) /
          inject_Z (Z.of_nat validItems))%Q.

(** [ExtractIssuesBySeverity] *)
Fixpoint issues_loop (severities : list string) (ls : list string) (items : slice) : slice :=
  match ls with
  | [] => items
  | line :: rest =>
      let lowercase := ToLower line in
      if existsb (fun severity => Contains lowercase (ToLower severity)) severities then
        let parts := SplitN2 line ":"%char in
        if (1 <? List.length parts)%nat && nonempty (TrimSpace (nth 1 parts "")) then
          issues_loop severities rest (slice_append items (TrimSpace (nth 1 parts "")))
        else if nonempty (TrimSpace line) then
          issues_loop severities rest (slice_append items (TrimSpace line))
        else issues_loop severities rest items
      else issues_loop severities rest items
  end.

Definition ExtractIssuesBySeverity (lines : list string) (severities : list string) : slice :=
  issues_loop severities lines NilSlice.

End AsciidocHelpers.

Module Part007.

(** Color tags and item markers, as literals in the source. *)
Definition RED := "{set:cellbgcolor:#FF0000}".
Definition YELLOW := "{set:cellbgcolor:#FEFE20}".
Definition BLUE := "{set:cellbgcolor:#80E5FF}".
Definition GREEN := "{set:cellbgcolor:#00FF00}".
Definition GRAY := "{set:cellbgcolor:#A6B9BF}".
Definition ITEM_START := "// ------------------------ITEM START".
Definition ITEM_END := "// ------------------------ITEM END".

(** [ExtractClusterName] of the part_007 revision: [""] when nothing matches. *)
Fixpoint ExtractClusterName (lines : list string) : string :=
  match lines with
  | [] => ""
  | line :: rest =>
      if Contains line "cluster" then
        match FindCluster line with
        | Some (g1, g2) =>
            if nonempty g1 then g1
            else if nonempty g2 then g2
            else ExtractClusterName rest
        | None => ExtractClusterName rest
        end
      else ExtractClusterName rest
  end.

(** [ExtractCustomerName] of the part_007 revision: [""] when nothing matches. *)
Fixpoint ExtractCustomerName (lines : list string) : string :=
  match lines with
  | [] => ""
  | line :: rest =>
      if Contains line "conducted" && Contains line "health check" then
        match FindCustomer line with
        | Some g => TrimSpace g
        | None => ExtractCustomerName rest
        end
      else ExtractCustomerName rest
  end.

(** The Summary section bounds, computed in the same way by every helper. *)
Fixpoint index_of (p : string -> bool) (l : list string) : option nat :=
  match l with
  | [] => None
  | x :: l' => if p x then Some 0 else option_map S (index_of p l')
  end.

Definition is_summary_heading (line : string) : bool :=
  String.eqb (TrimSpace line) "= Summary".

Definition is_next_section (line : string) : bool :=
  HasPrefix (TrimSpace line) "=" && negb (Contains line "= Summary").

(** [summaryStartIndex]: [None] stands for [-1]. *)
Definition summaryStartIndex (lines : list string) : option nat :=
  index_of is_summary_heading lines.

Definition summaryEndIndex (lines : list string) (start : nat) : nat :=
  match index_of is_next_section (skipn (S start) lines) with
  | Some k => S start + k
  | None => List.length lines
  end.

(** [lines[summaryStartIndex:summaryEndIndex]] *)
Definition summaryLines (lines : list string) : option (list string) :=
  match summaryStartIndex lines with
  | None => None
  | Some st => Some (firstn (summaryEndIndex lines st - st) (skipn st lines))
  end.

(** The five counters returned by [CountAllStatusItems]. *)
Record StatusCounts := {
  required : nat; recommended : nat; advisory : nat; noChange : nat; notApplicable : nat }.

Definition zero_counts : StatusCounts := Build_StatusCounts 0 0 0 0 0.

Definition is_legend_row (line : string) : bool :=
  Contains line "*Category*" ||
  Contains line "Indicates Changes Required" ||
  Contains line "Indicates Changes Recommended" ||
  Contains line "No advise given" ||
  Contains line "No change required" ||
  Contains line "Not yet evaluated".

Definition count_color (line : string) (c : StatusCounts) : StatusCounts :=
  let '(Build_StatusCounts r rc a n na) := c in
  if Contains line RED then Build_StatusCounts (S r) rc a n na
  else if Contains line YELLOW then Build_StatusCounts r (S rc) a n na
  else if Contains line BLUE then Build_StatusCounts r rc (S a) n na
  else if Contains line GREEN then Build_StatusCounts r rc a (S n) na
  else if Contains line GRAY then Build_StatusCounts r rc a n (S na)
  else c.

(** The loop of [CountAllStatusItems] over the Summary section. *)
Fixpoint count_loop (ls : list string) (inItem inTable : bool) (c : StatusCounts)
  : StatusCounts :=
  match ls with
  | [] => c
  | line :: rest =>
      if Contains line ITEM_START then count_loop rest true inTable c
      else if Contains line ITEM_END then count_loop rest false inTable c
      else if Contains line "|===" && negb inTable then count_loop rest inItem true c
      else if Contains line "|===" && inTable then c
      else if inTable && is_legend_row line then count_loop rest inItem inTable c
      else if (inTable || inItem) && negb (Contains line "Description") then
        count_loop rest inItem inTable (count_color line c)
      else count_loop rest inItem inTable c
  end.

(** [CountAllStatusItems] *)
Definition CountAllStatusItems (lines : list string) : StatusCounts :=
  match summaryLines lines with
  | None => zero_counts
  | Some sec => count_loop sec false false zero_counts
  end.

(** [GenerateDescription] of the part_007 revision. *)
Definition GenerateDescription (categoryName : string) (score : Z) : string :=
  if (90 <=? score)%Z then categoryName ++ " is excellent with best practices in place."
  else if (80 <=? score)%Z then categoryName ++ " is well-configured with only minor improvements needed."
  else if (70 <=? score)%Z then categoryName ++ " meets most requirements but has some areas that could be improved."
  else if (60 <=? score)%Z then categoryName ++ " has several areas that need attention to meet best practices."
  else if (0 <? score)%Z then categoryName ++ " requires significant improvements to ensure stability and security."
  else "".


(** [ItemsByCategory]: one Go map per status, from category to count. *)
Record ItemsByCategory := {
  Required : gmap string nat; Recommended : gmap string nat; Advisory : gmap string nat;
  NoChange : gmap string nat; NotApplicable : gmap string nat }.

(** [m[k]++] on a Go map (a missing key reads as 0). *)
Definition map_incr (m : gmap string nat) (k : string) : gmap string nat :=
  <[k := default 0 (m !! k) + 1]> m.

(** The [switch currentStatus] of [CountStatusByCategory]. *)
Definition count_category (status cat : string) (r : ItemsByCategory) : ItemsByCategory :=
  if String.eqb status "required" then
    {| Required := map_incr (Required r) cat; Recommended := Recommended r;
       Advisory := Advisory r; NoChange := NoChange r; NotApplicable := NotApplicable r |}
  else if String.eqb status "recommended" then
    {| Required := Required r; Recommended := map_incr (Recommended r) cat;
       Advisory := Advisory r; NoChange := NoChange r; NotApplicable := NotApplicable r |}
  else if String.eqb status "advisory" then
    {| Required := Required r; Recommended := Recommended r;
       Advisory := map_incr (Advisory r) cat; NoChange := NoChange r; NotApplicable := NotApplicable r |}
  else if String.eqb status "nochange" then
    {| Required := Required r; Recommended := Recommended r;
       Advisory := Advisory r; NoChange := map_incr (NoChange r) cat; NotApplicable := NotApplicable r |}
  else if String.eqb status "notapplicable" then
    {| Required := Required r; Recommended := Recommended r;
       Advisory := Advisory r; NoChange := NoChange r; NotApplicable := map_incr (NotApplicable r) cat |}
  else r.

Definition is_legend_phrase (line : string) : bool :=
  Contains line "Indicates Changes Required" ||
  Contains line "Indicates Changes Recommended" ||
  Contains line "No advise given" ||
  Contains line "No change required" ||
  Contains line "Not yet evaluated".

Definition status_of_line (line currentStatus : string) : string :=
  if Contains line RED then "required"
  else if Contains line YELLOW then "recommended"
  else if Contains line BLUE then "advisory"
  else if Contains line GREEN then "nochange"
  else if Contains line GRAY then "notapplicable"
  else currentStatus.

(** The loop of [CountStatusByCategory] over the Summary section. *)
Fixpoint category_loop (ls : list string) (currentCategory currentStatus : string)
    (inTable : bool) (r : ItemsByCategory) : ItemsByCategory :=
  match ls with
  | [] => r
  | raw :: rest =>
      let line := TrimSpace raw in
      if Contains line "|===" then category_loop rest currentCategory currentStatus (negb inTable) r
      else if negb inTable then category_loop rest currentCategory currentStatus inTable r
      else if HasPrefix line "|" && negb (Contains line "cellbgcolor") then
        category_loop rest (TrimSpace (TrimPrefix line "|")) currentStatus inTable r
      else
        let st := status_of_line line currentStatus in
        if nonempty currentCategory && nonempty st then
          if is_legend_phrase line then category_loop rest currentCategory "" inTable r
          else category_loop rest currentCategory "" inTable (count_category st currentCategory r)
        else category_loop rest currentCategory st inTable r
  end.

Definition empty_by_category : ItemsByCategory :=
  {| Required := ∅; Recommended := ∅; Advisory := ∅; NoChange := ∅; NotApplicable := ∅ |}.

(** [CountStatusByCategory] *)
Definition CountStatusByCategory (lines : list string) : ItemsByCategory :=
  match summaryLines lines with
  | None => empty_by_category
  | Some sec => category_loop sec "" "" false empty_by_category
  end.

(** [CalculateCategoryScore]; the map argument built by the caller has the
    four keys "required", "recommended", "advisory", "nochange", passed here
    as four numbers. [int(float64(w) / float64(t))] is the floor of [w/t]. *)
Definition CalculateCategoryScore (required recommended advisory noChange : nat)
    (categoryName : string) : Z :=
  let totalItems := required + recommended + advisory + noChange in
  if (totalItems =? 0)%nat then 0%Z
  else Z.of_nat ((noChange * 100 + advisory * 80 + recommended * 50) / totalItems).

(** [ExtractGeneralCategoryScore]: 0 when nothing is found. *)
Fixpoint ExtractGeneralCategoryScore (lines : list string) (keywords : list string) : Z :=
  match lines with
  | [] => 0%Z
  | line :: rest =>
      let lowercase := ToLower line in
      if existsb (fun keyword => Contains lowercase (ToLower keyword)) keywords then
        match FindPercent line with
        | Some ds => Atoi ds
        | None => ExtractGeneralCategoryScore rest keywords
        end
      else ExtractGeneralCategoryScore rest keywords
  end.

Fixpoint find_category_score (name : string) (lines : list string) : option Z :=
  match lines with
  | [] => None
  | line :: rest =>
      match FindCategory name line with
      | Some ds => Some (Atoi ds)
      | None => find_category_score name rest
      end
  end.

(** [ExtractCategoryScore] *)
Definition ExtractCategoryScore (lines : list string) (categoryName : string) : Z :=
  match find_category_score categoryName lines with
  | Some score => score
  | None => ExtractGeneralCategoryScore lines (Split categoryName " ")
  end.

(** The inner loop of [ExtractCategoryDescription] over [lines[i+1 .. i+9]]. *)
Fixpoint find_description (window : list string) : string :=
  match window with
  | [] => ""
  | l :: rest =>
      if String.eqb l "" then find_description rest
      else if HasPrefix l "*" || HasPrefix l "#" || Contains l "%" then find_description rest
      else l
  end.

(** [ExtractCategoryDescription] of the part_007 revision (no generated fallback). *)
Fixpoint ExtractCategoryDescription (lines : list string) (categoryName : string) : string :=
  match lines with
  | [] => ""
  | line :: rest =>
      if Contains line categoryName then
        let d := find_description (firstn 9 rest) in
        if nonempty d then d else ExtractCategoryDescription rest categoryName
      else ExtractCategoryDescription rest categoryName
  end.

(** The loop variables of [ExtractRequiredChanges], [ExtractRecommendedChanges]
    and [ExtractAdvisoryActions] ([currentItem] is only a temporary). *)
Record ItemState := {
  itemName : string; observation : string; inItem : bool; items : slice }.

(** One iteration of the loop shared by the three functions; they differ
    only in the color tag kept ([tag]) and the legend phrase that
    disqualifies it ([legend]). *)
Definition item_step (tag legend : string) (st : ItemState) (line : string) : ItemState :=
  let '(Build_ItemState itemName observation inItem items) := st in
  if Contains line ITEM_START then Build_ItemState "" "" true items
  else if Contains line ITEM_END then
    let items' :=
      if inItem && nonempty itemName then
        let currentItem :=
          if nonempty observation then itemName ++ ": " ++ observation else itemName in
        if nonempty currentItem then slice_append items currentItem else items
      else items in
    Build_ItemState itemName observation false items'
  else if negb inItem then st
  else if Contains line "<<" && Contains line ">>" then
    let itemName' := match FindXref line with Some g => TrimSpace g | None => itemName end in
    Build_ItemState itemName' observation inItem items
  else if nonempty itemName && negb (nonempty observation) &&
          negb (HasPrefix line "//") && negb (Contains line "{set:cellbgcolor") then
    let line' := if HasPrefix line "|" then TrimSpace (drop 1 line) else line in
    let observation' := if nonempty line' then line' else observation in
    Build_ItemState itemName observation' inItem items
  else if Contains line tag && negb (Contains line legend) then st
  else if Contains line "set:cellbgcolor:" then Build_ItemState itemName observation false items
  else st.

(** [for _, line := range summaryLines { ... }] *)
Definition item_run (tag legend : string) (ls : list string) (st : ItemState) : ItemState :=
  fold_left (item_step tag legend) ls st.

Definition item_init : ItemState := Build_ItemState "" "" false NilSlice.

Definition extract_items (tag legend : string) (lines : list string) : slice :=
  match summaryLines lines with
  | None => NilSlice
  | Some sec => items (item_run tag legend sec item_init)
  end.

(** [ExtractRequiredChanges] *)
Definition ExtractRequiredChanges (lines : list string) : slice :=
  extract_items RED "Indicates Changes Required" lines.
(** [ExtractRecommendedChanges] *)
Definition ExtractRecommendedChanges (lines : list string) : slice :=
  extract_items YELLOW "Indicates Changes Recommended" lines.
(** [ExtractAdvisoryActions] *)
Definition ExtractAdvisoryActions (lines : list string) : slice :=
  extract_items BLUE "No advise given" lines.

(** The loop of [CountNoChangeItems]. *)
Fixpoint nochange_loop (ls : list string) (inItem inTable : bool) (count : nat) : nat :=
  match ls with
  | [] => count
  | line :: rest =>
      if Contains line ITEM_START then nochange_loop rest true inTable count
      else if Contains line ITEM_END then nochange_loop rest false inTable count
      else if Contains line "|===" then nochange_loop rest inItem (negb inTable) count
      else if (inTable || inItem) && Contains line GREEN && negb (Contains line "No change required")
      then nochange_loop rest inItem inTable (S count)
      else nochange_loop rest inItem inTable count
  end.

(** [CountNoChangeItems] *)
Definition CountNoChangeItems (lines : list string) : nat :=
  match summaryLines lines with
  | None => 0
  | Some sec => nochange_loop sec false false 0
  end.

End Part007.

(* ------------------------------------------------------------------ *)
(** ** [report_parser.go]: the second [ParseAsciiDocExecutiveSummary] *)

Module ReportParser.

Import Part007.

(** [types.ReportSummary] *)
Record ReportSummary := {
  ClusterName : string;
  CustomerName : string;
  OverallScore : Q;
  ScoreInfra : Z;
  ScoreGovernance : Z;
  ScoreCompliance : Z;
  ScoreMonitoring : Z;
  ScoreBuildSecurity : Z;
  InfraDescription : string;
  GovernanceDescription : string;
  ComplianceDescription : string;
  MonitoringDescription : string;
  BuildSecurityDescription : string;
  ItemsRequired : slice;
  ItemsRecommended : slice;
  ItemsAdvisory : slice;
  NoChangeCount : nat;
  NotApplicableCount : nat }.

(** [categoryItemCount]: sum of the counts of every key containing [category]
    (the Go map is iterated in any order; the sum does not depend on it). *)
Definition categoryItemCount (items : gmap string nat) (category : string) : nat :=
  map_fold (fun cat c count => if Contains cat category then count + c else count) 0 items.

(** The overall score, lines 211-218. *)
Definition overall_score (c : StatusCounts) : Q :=
  let totalValidItems := (required c + recommended c + advisory c + noChange c)%nat in
  if (0 <? totalValidItems)%nat then
    (inject_Z (Z.of_nat (noChange c * 100 + advisory c * 80 + recommended c * 50)) /
     inject_Z (Z.of_nat totalValidItems))%Q
  else 0%Q.

(** [if summary.ScoreX == 0 { summary.ScoreX = ExtractCategoryScore(lines, name) }] *)
Definition score_or_extract (score : Z) (lines : list string) (name : string) : Z :=
  if (score =? 0)%Z then ExtractCategoryScore lines name else score.

(** Extracted description, else the generated one (lines 285-308). *)
Definition description_or_generate (lines : list string) (extractName genName : string)
    (score : Z) : string :=
  let d := ExtractCategoryDescription lines extractName in
  if String.eqb d "" then GenerateDescription genName score else d.

(** The placeholder loops of lines 316-332. *)
Definition placeholders (label : string) (count : nat) (items : slice) : slice :=
  if (slice_len items =? 0)%nat && (0 <? count)%nat then
    fold_left (fun acc i => slice_append acc (label ++ " Item " ++ itoa (S i))) (seq 0 count) items
  else items.

(** The body of [ParseAsciiDocExecutiveSummary] after the file is read and
    split into lines. *)
Definition ParseLines (lines : list string) : ReportSummary :=
  let itemsRequired0 := Slice [] in           (* line 193, overwritten at line 311 *)
  let itemsRecommended0 := Slice [] in        (* line 194, overwritten at line 312 *)
  let itemsAdvisory0 := Slice [] in           (* line 195, overwritten at line 313 *)
  let clusterName := ExtractClusterName lines in
  let customerName := ExtractCustomerName lines in
  let c := CountAllStatusItems lines in
  let overallScore := overall_score c in
  let ci := CountStatusByCategory lines in
  let scoreInfra0 :=
    CalculateCategoryScore (categoryItemCount (Required ci) "Cluster Config")
      (categoryItemCount (Recommended ci) "Cluster Config")
      (categoryItemCount (Advisory ci) "Cluster Config")
      (categoryItemCount (NoChange ci) "Cluster Config") "Infrastructure Setup" in
  let scoreGovernance0 :=
    CalculateCategoryScore (categoryItemCount (Required ci) "Security")
      (categoryItemCount (Recommended ci) "Security")
      (categoryItemCount (Advisory ci) "Security")
      (categoryItemCount (NoChange ci) "Security") "Policy Governance" in
  let scoreCompliance0 :=
    CalculateCategoryScore 0 (categoryItemCount (Recommended ci) "Performance")
      (categoryItemCount (Advisory ci) "Performance")
      (categoryItemCount (NoChange ci) "Performance") "Compliance Benchmarking" in
  let scoreMonitoring0 :=
    CalculateCategoryScore 0 (categoryItemCount (Recommended ci) "Op-Ready")
      (categoryItemCount (Advisory ci) "Op-Ready")
      (categoryItemCount (NoChange ci) "Op-Ready") "Monitoring" in
  let scoreBuild0 :=
    CalculateCategoryScore 0 (categoryItemCount (Recommended ci) "Applications")
      (categoryItemCount (Advisory ci) "Applications")
      (categoryItemCount (NoChange ci) "Applications") "Build/Deploy Security" in
  let scoreInfra := score_or_extract scoreInfra0 lines "Infrastructure Setup" in
  let scoreGovernance := score_or_extract scoreGovernance0 lines "Policy Governance" in
  let scoreCompliance := score_or_extract scoreCompliance0 lines "Compliance Benchmarking" in
  let scoreMonitoring :=
    if (scoreMonitoring0 =? 0)%Z then
      score_or_extract (ExtractCategoryScore lines "Central Monitoring") lines "Monitoring"
    else scoreMonitoring0 in
  let scoreBuild := score_or_extract scoreBuild0 lines "Build/Deploy Security" in
  let itemsRequired := ExtractRequiredChanges lines in
  let itemsRecommended := ExtractRecommendedChanges lines in
  let itemsAdvisory := ExtractAdvisoryActions lines in
  {| ClusterName := clusterName;
     CustomerName := customerName;
     OverallScore := overallScore;
     ScoreInfra := scoreInfra;
     ScoreGovernance := scoreGovernance;
     ScoreCompliance := scoreCompliance;
     ScoreMonitoring := scoreMonitoring;
     ScoreBuildSecurity := scoreBuild;
     InfraDescription :=
       description_or_generate lines "Infrastructure Setup" "Infrastructure Setup" scoreInfra;
     GovernanceDescription :=
       description_or_generate lines "Policy Governance" "Policy Governance" scoreGovernance;
     ComplianceDescription :=
       description_or_generate lines "Compliance Benchmarking" "Compliance Benchmarking" scoreCompliance;
     MonitoringDescription :=
       description_or_generate lines "Central Monitoring" "Monitoring" scoreMonitoring;
     BuildSecurityDescription :=
       description_or_generate lines "Build/Deploy Security" "Build/Deploy Security" scoreBuild;
     ItemsRequired := placeholders "Required" (required c) itemsRequired;
     ItemsRecommended := placeholders "Recommended" (recommended c) itemsRecommended;
     ItemsAdvisory := placeholders "Advisory" (advisory c) itemsAdvisory;
     NoChangeCount := if (noChange c =? 0)%nat then CountNoChangeItems lines else noChange c;
     NotApplicableCount := notApplicable c |}.

(** [ParseAsciiDocExecutiveSummary] on the file content (the [os.ReadFile]
    error is the only error path and is left out):
    [lines := strings.Split(fileContent, "\n")]. *)
Definition ParseAsciiDocExecutiveSummary (fileContent : string) : ReportSummary :=
  ParseLines (Split fileContent (ascii_of_nat 10)).


(** The helpers that follow [ParseAsciiDocExecutiveSummary] in
    [report_parser.go]. *)

(** [min] and [max] (called on non-negative ints only). *)
Definition min (a b : nat) : nat := if (a <? b)%nat then a else b.
Definition max (a b : nat) : nat := if (b <? a)%nat then a else b.

(** The clean-up of a matching line in [scanDocumentForKeyItems]. *)
Definition clean_key_line (line : string) : string :=
  TrimPrefix (TrimPrefix (TrimSpace line) "* ") "- ".

Definition key_line (keywords : list string) (line : string) : bool :=
  existsb (fun keyword => Contains (ToLower line) (ToLower keyword)) keywords.

(** The loop of [scanDocumentForKeyItems]; [seen] is the key set of
    [seenItems] (a key is only ever set to [true]). *)
Fixpoint scan_loop (keywords : list string) (ls : list string) (items : slice)
    (seen : gset string) : slice :=
  match ls with
  | [] => items
  | line :: rest =>
      if key_line keywords line then
        let cleanLine := clean_key_line line in
        if bool_decide (cleanLine ∈ seen) then scan_loop keywords rest items seen
        else scan_loop keywords rest (slice_append items cleanLine) ({[cleanLine]} ∪ seen)
      else scan_loop keywords rest items seen
  end.

(** [scanDocumentForKeyItems] *)
Definition scanDocumentForKeyItems (lines keywords : list string) : slice :=
  scan_loop keywords lines NilSlice ∅.

(** The clean-up of an item line in [extractItemsFromSection]. *)
Definition clean_item_line (line : string) : string :=
  let line1 := TrimPrefix line "* " in
  let line2 := TrimPrefix line1 "- " in
  let line3 :=
    if HasPrefix line2 "1. " || HasPrefix line2 "2. " || HasPrefix line2 "3. "
    then substring 3 (String.length line2 - 3) line2 else line2 in
  TrimSpace line3.

Fixpoint section_items_loop (isItemLine : string -> bool) (ls : list string) (items : slice)
  : slice :=
  match ls with
  | [] => items
  | l :: rest =>
      let line := TrimSpace l in
      if String.eqb line "" then section_items_loop isItemLine rest items
      else if HasPrefix line "=" then items
      else if isItemLine line then
        section_items_loop isItemLine rest (slice_append items (clean_item_line line))
      else section_items_loop isItemLine rest items
  end.

(** [extractItemsFromSection]: the lines of index [startIdx+1 .. endIdx-1]. *)
Definition extractItemsFromSection (lines : list string) (startIdx maxLines : nat)
    (isItemLine : string -> bool) : slice :=
  let endIdx := min (startIdx + maxLines) (List.length lines) in
  section_items_loop isItemLine (firstn (endIdx - S startIdx) (skipn (S startIdx) lines)) NilSlice.

Definition required_marker (line : string) : bool :=
  Contains line "Changes Required:" || Contains line "* Required Changes:" ||
  Contains line "== Changes Required".
Definition recommended_marker (line : string) : bool :=
  Contains line "Changes Recommended:" || Contains line "* Recommended Changes:" ||
  Contains line "== Changes Recommended".
Definition advisory_marker (line : string) : bool :=
  Contains line "Advisory Actions:" || Contains line "* Advisory:" || Contains line "== Advisory".

Definition is_required_item (l : string) : bool :=
  HasPrefix l "* " || HasPrefix l "- " ||
  (HasPrefix l "1. " && negb (Contains (ToLower l) "recommended")).
Definition is_recommended_item (l : string) : bool :=
  HasPrefix l "* " || HasPrefix l "- " ||
  (HasPrefix l "1. " && negb (Contains (ToLower l) "required")).
Definition is_advisory_item (l : string) : bool :=
  HasPrefix l "* " || HasPrefix l "- " || HasPrefix l "1. ".

Definition required_keywords : list string :=
  ["kubeadmin user should be removed"; "outdated version"; "unsupported configuration";
   "critical vulnerability"; "security risk"; "immediate action"].
Definition recommended_keywords : list string :=
  ["should implement network policies"; "update recommended"; "configure resource limits";
   "enable monitoring"; "improve security"].

(** The section loop of [enhancedItemExtraction]; [i] is the index of the
    head of [ls] in [lines]. *)
Fixpoint enhanced_loop (lines ls : list string) (i : nat) (req rec adv : slice)
  : slice * slice * slice :=
  match ls with
  | [] => (req, rec, adv)
  | line :: rest =>
      let req' := if required_marker line
                  then slice_append_all req (extractItemsFromSection lines i 20 is_required_item)
                  else req in
      let rec' := if recommended_marker line
                  then slice_append_all rec (extractItemsFromSection lines i 20 is_recommended_item)
                  else rec in
      let adv' := if advisory_marker line
                  then slice_append_all adv (extractItemsFromSection lines i 20 is_advisory_item)
                  else adv in
      enhanced_loop lines rest (S i) req' rec' adv'
  end.

(** [enhancedItemExtraction] *)
Definition enhancedItemExtraction (lines : list string) : slice * slice * slice :=
  let '(req, rec, adv) := enhanced_loop lines lines 0 NilSlice NilSlice NilSlice in
  let req' := if (slice_len req =? 0)%nat then scanDocumentForKeyItems lines required_keywords
              else req in
  let rec' := if (slice_len rec =? 0)%nat then scanDocumentForKeyItems lines recommended_keywords
              else rec in
  (req', rec', adv).

(** The percentage loop of [calculateFallbackScore].  [strconv.ParseFloat]
    of a digit string is its value (an error only beyond the float64 range,
    where the value fails the [<= 100] test as well); the sum of at most
    [len(lines)] integers in [1, 100] is exact in a float64. *)
Fixpoint fallback_loop (ls : list string) (totalScore : Z) (categoryCount : nat) : Z * nat :=
  match ls with
  | [] => (totalScore, categoryCount)
  | line :: rest =>
      if negb (Contains line "cellbgcolor") && Contains line "%" then
        match FindPercent line with
        | Some ds =>
            let score := digits_value ds 0 in
            if (0 <? score)%Z && (score <=? 100)%Z
            then fallback_loop rest (totalScore + score)%Z (S categoryCount)
            else fallback_loop rest totalScore categoryCount
        | None => fallback_loop rest totalScore categoryCount
        end
      else fallback_loop rest totalScore categoryCount
  end.

(** [calculateFallbackScore] *)
Definition calculateFallbackScore (lines : list string) : Q :=
  let '(totalScore, categoryCount) := fallback_loop lines 0 0 in
  if (0 <? categoryCount)%nat then (inject_Z totalScore / inject_Z (Z.of_nat categoryCount))%Q
  else
    let c := CountAllStatusItems lines in
    let total := (required c + recommended c + advisory c + noChange c)%nat in
    if (total =? 0)%nat then 75%Q
    else (inject_Z (Z.of_nat (noChange c * 100 + advisory c * 80 + recommended c * 50)) /
          inject_Z (Z.of_nat total))%Q.

(** [lines[j]] *)
Definition nth_line (lines : list string) (j : nat) : string := nth j lines "".

(** The item-name loop of [extractItemsByColorCode] over the indices [js]. *)
Fixpoint find_item_name (lines : list string) (js : list nat) : string :=
  match js with
  | [] => ""
  | j :: js' =>
      let l := nth_line lines j in
      if Contains l "<<" && Contains l ">>" then
        match FindXref l with Some g => g | None => find_item_name lines js' end
      else find_item_name lines js'
  end.

(** The description loop of [extractItemsByColorCode] over the indices [js]. *)
Fixpoint find_item_desc (lines : list string) (i : nat) (js : list nat) : string :=
  match js with
  | [] => ""
  | j :: js' =>
      let l := nth_line lines j in
      if negb (j =? i)%nat && negb (Contains l "cellbgcolor") && nonempty (TrimSpace l) &&
         Contains l "|" then
        let desc := TrimSpace (TrimPrefix l "|") in
        if nonempty desc && negb (Contains desc "<<") && negb (Contains desc ">>") then desc
        else find_item_desc lines i js'
      else find_item_desc lines i js'
  end.

(** The main loop of [extractItemsByColorCode]; [i] is the index of the head
    of [ls] in [lines].  [itemName] and [itemDesc] are [""] whenever a
    colored line is reached (they are reset after each one), so they are
    local here.  On [nat], [i - 5] is [max(0, i-5)]. *)
Fixpoint color_code_loop (lines : list string) (colorCode itemType : string)
    (ls : list string) (i : nat) (inTable : bool) (items : slice) : slice :=
  match ls with
  | [] => items
  | line :: rest =>
      if Contains line "|===" then color_code_loop lines colorCode itemType rest (S i) (negb inTable) items
      else if negb inTable then color_code_loop lines colorCode itemType rest (S i) inTable items
      else if Contains line colorCode then
        let lo := max 0 (i - 5) in
        let itemName := find_item_name lines (seq lo (i - lo)) in
        let itemDesc := find_item_desc lines i (seq lo (min (i + 5) (List.length lines) - lo)) in
        let item :=
          if nonempty itemName then
            (if nonempty itemDesc then itemName ++ ": " ++ itemDesc else itemName)
          else if nonempty itemDesc then itemDesc
          else itemType ++ " Item " ++ itoa (slice_len items + 1) in
        color_code_loop lines colorCode itemType rest (S i) inTable (slice_append items item)
      else color_code_loop lines colorCode itemType rest (S i) inTable items
  end.

(** [extractItemsByColorCode] *)
Definition extractItemsByColorCode (lines : list string) (colorCode itemType : string) : slice :=
  color_code_loop lines colorCode itemType lines 0 false NilSlice.
End ReportParser.

Import Part007 ReportParser.

(* ------------------------------------------------------------------ *)
(** ** Auxiliary definitions used by the statements *)

(** The Summary section, described by its lines rather than its indices. *)
Fixpoint drop_to_heading (lines : list string) : option (list string) :=
  match lines with
  | [] => None
  | l :: rest => if is_summary_heading l then Some (l :: rest) else drop_to_heading rest
  end.

Fixpoint take_until (p : string -> bool) (l : list string) : list string :=
  match l with
  | [] => []
  | x :: rest => if p x then [] else x :: take_until p rest
  end.

Definition section_of (lines : list string) : option (list string) :=
  match drop_to_heading lines with
  | Some (h :: rest) => Some (h :: take_until is_next_section rest)
  | _ => None
  end.

(** A table row tagged gray (NotApplicable) and nothing else: no other color
    tag, no table delimiter, no item marker, and not a heading. *)
Definition gray_row (line : string) : bool :=
  Contains line GRAY && negb (Contains line RED) && negb (Contains line YELLOW) &&
  negb (Contains line BLUE) && negb (Contains line GREEN) &&
  negb (Contains line "|===") && negb (Contains line ITEM_START) &&
  negb (Contains line ITEM_END) && negb (HasPrefix (TrimSpace line) "=").

(** Appending the entries [es] one by one to a slice. *)
Definition slice_cat (s : slice) (es : list string) : slice :=
  match es with [] => s | _ => Slice (slice_elems s ++ es) end.

Definition with_items (st : ItemState) (i : slice) : ItemState :=
  Build_ItemState (itemName st) (observation st) (inItem st) i.

(** The entries a chunk of the Summary section emits from a fresh state. *)
Definition chunk_entries (tag legend : string) (chunk : list string) : list string :=
  slice_elems (items (item_run tag legend chunk item_init)).

(** What one line contributes to the metadata extractors. *)
Definition cluster_hit (line : string) : option string :=
  if Contains line "cluster" then
    match FindCluster line with
    | Some (g1, g2) => if nonempty g1 then Some g1 else if nonempty g2 then Some g2 else None
    | None => None
    end
  else None.

Definition customer_hit (line : string) : option string :=
  if Contains line "conducted" && Contains line "health check" then
    option_map TrimSpace (FindCustomer line)
  else None.

Fixpoint first_hit (f : string -> option string) (lines : list string) : option string :=
  match lines with
  | [] => None
  | l :: rest => match f l with Some x => Some x | None => first_hit f rest end
  end.

(** The description bands as the spec words them: below 60, below 70,
    below 80, below 90, else. *)
Definition spec_description (categoryName : string) (score : Z) : string :=
  if (score <? 60)%Z then categoryName ++ " requires significant improvements to ensure stability and security."
  else if (score <? 70)%Z then categoryName ++ " has several areas that need attention to meet best practices."
  else if (score <? 80)%Z then categoryName ++ " meets most requirements but has some areas that could be improved."
  else if (score <? 90)%Z then categoryName ++ " is well-configured with only minor improvements needed."
  else categoryName ++ " is excellent with best practices in place.".

(** Sum of the status weights of the counted items (NotApplicable excluded):
    Required 0, Recommended 50, Advisory 80, NoChange 100. *)
Definition weighted_sum (c : StatusCounts) : nat :=
  0 * required c + 50 * recommended c + 80 * advisory c + 100 * noChange c.

Definition counted_items (c : StatusCounts) : nat :=
  required c + recommended c + advisory c + noChange c.

(** [c] with [m] more NotApplicable items. *)
Definition add_na (c : StatusCounts) (m : nat) : StatusCounts :=
  Build_StatusCounts (required c) (recommended c) (advisory c) (noChange c)
    (notApplicable c + m).

(** A Summary table with one row of each of the five statuses. *)
Definition sample_table_doc : list string :=
  ["Executive summary of the cluster prod-east"; "= Summary"; "|===";
   "|*Category* |*Item Evaluated* |*Observed Result* |*Recommendation*";
   "|{set:cellbgcolor:#FF0000} Indicates Changes Required";
   "|Cluster Config"; "|<<A>>"; "|{set:cellbgcolor:#FF0000}";
   "|<<B>>"; "|{set:cellbgcolor:#FEFE20}";
   "|<<C>>"; "|{set:cellbgcolor:#80E5FF}";
   "|<<D>>"; "|{set:cellbgcolor:#00FF00}";
   "|<<E>>"; "|{set:cellbgcolor:#A6B9BF}"; "|==="; "= Details"].

Definition sample_gray_rows : list string :=
  ["|{set:cellbgcolor:#A6B9BF}"; "|{set:cellbgcolor:#A6B9BF} n/a"].

(** One Changes Required item block of the Summary section. *)
Definition dup_item_block : list string :=
  [ITEM_START; "|<<KubeadminUser>>"; "|kubeadmin account still present";
   "|{set:cellbgcolor:#FF0000}"; ITEM_END].

(** A Summary section holding the same block twice. *)
Definition dup_block_doc : list string :=
  ("= Summary" :: dup_item_block ++ dup_item_block)%list.

(** A Changes Required block for the same item with another observation. *)
Definition other_obs_block : list string :=
  [ITEM_START; "|<<KubeadminUser>>"; "|kubeadmin password never rotated";
   "|{set:cellbgcolor:#FF0000}"; ITEM_END].

(** A Summary section holding two blocks for the same item and status with
    different observations. *)
Definition dup_name_doc : list string :=
  ("= Summary" :: dup_item_block ++ other_obs_block)%list.

(** The category score [ParseAsciiDocExecutiveSummary] computes from the
    counted items of the category key [key] (lines 221-261), before the
    fallback to [ExtractCategoryScore]; [withRequired] is false for the three
    categories whose Required count is passed as 0. *)
Definition category_computed_score (lines : list string) (key name : string)
    (withRequired : bool) : Z :=
  let ci := CountStatusByCategory lines in
  CalculateCategoryScore (if withRequired then categoryItemCount (Required ci) key else 0)
    (categoryItemCount (Recommended ci) key) (categoryItemCount (Advisory ci) key)
    (categoryItemCount (NoChange ci) key) name.

(** A chunk of the Summary section that opens with an ITEM START line. *)
Definition starts_item_block (b : list string) : bool :=
  match b with
  | [] => false
  | x :: _ => Contains x ITEM_START
  end.

(** A Summary section whose only item block carries no color tag. *)
Definition untagged_doc : list string :=
  ["= Summary"; ITEM_START; "|<<Foo>>"; "|obs"; ITEM_END].

(** A status table with one Changes Required row and no Summary heading. *)
Definition no_heading_doc : list string :=
  ["= Health Check"; "|==="; "|Cluster Config"; "|<<A>>"; "|{set:cellbgcolor:#FF0000}"; "|==="].

(** A customer line whose captured name is white space only. *)
Definition blank_customer_doc : list string :=
  ["Red Hat conducted a health check - 's environment"].

(** The rows [extractItemsByColorCode] turns into items: the lines carrying
    [code] that are not table delimiters ([|===]) and are preceded by an odd
    number of delimiter lines; [delims] counts the delimiters already seen. *)
Fixpoint colored_rows (code : string) (ls : list string) (delims : nat) : nat :=
  match ls with
  | [] => 0
  | l :: rest =>
      if Contains l "|===" then colored_rows code rest (S delims)
      else ((if Nat.odd delims && Contains l code then 1 else 0) + colored_rows code rest delims)%nat
  end.

(** The counters of [CalculateScoreFromStatusCounts] never exceed its total. *)
Definition tally_ok (t : AsciidocHelpers.Tally) : Prop :=
  (AsciidocHelpers.requiredChanges t + AsciidocHelpers.recommendedChanges t +
   AsciidocHelpers.advisoryT t + AsciidocHelpers.noChanges t +
   AsciidocHelpers.notApplicableT t <= AsciidocHelpers.totalItems t)%nat.

(** The shape of an entry of the part_007 item extractors: a non-empty item
    name, alone or followed by [": "] and an observation. *)
Definition item_entry_ok (x : string) : Prop :=
  exists n o, nonempty n = true /\ (x = n \/ x = n ++ ": " ++ o).

(** A line carrying one of the five status color tags. *)
Definition status_tagged (line : string) : bool :=
  Contains line RED || Contains line YELLOW || Contains line BLUE || Contains line GREEN ||
  Contains line GRAY.

(** A table delimiter line as [CountAllStatusItems] sees it: it contains
    [|===] and is not an item marker line. *)
Definition table_delim (line : string) : bool :=
  Contains line "|===" && negb (Contains line ITEM_START) && negb (Contains line ITEM_END).

(** A string made of white space only. *)
Fixpoint all_space (s : string) : bool :=
  match s with
  | EmptyString => true
  | String c s' => IsSpace c && all_space s'
  end.

Definition NL : string := String (ascii_of_nat 10) EmptyString.

(** Joining lines into a file content. *)
Fixpoint join_lines (ls : list string) : string :=
  match ls with
  | [] => ""
  | [l] => l
  | l :: rest => l ++ NL ++ join_lines rest
  end.

Example trim_ex : TrimSpace "  = Summary  " = "= Summary".
Proof. reflexivity. Qed.
Example split_ex : Split "Build/Deploy Security" " " = ["Build/Deploy"; "Security"].
Proof. reflexivity. Qed.
Example itoa_ex : itoa 12 = "12".
Proof. reflexivity. Qed.
Example lower_ex : ToLower "Infra Setup" = "infra setup".
Proof. reflexivity. Qed.
Example xref_ex : FindXref "|<<Kubeadmin User>> x" = Some "Kubeadmin User".
Proof. reflexivity. Qed.
Example percent_ex : FindPercent "a 12b 34% 56%" = Some "34".
Proof. reflexivity. Qed.
Example category_ex : FindCategory "Policy Governance" "*Policy Governance*:  85%" = Some "85".
Proof. reflexivity. Qed.
Example cluster_ex : FindCluster "the cluster prod-1 is up" = Some ("", "prod-1").
Proof. reflexivity. Qed.
Example customer_ex : FindCustomer "Red Hat conducted a health check of ACME's cluster" =
  Some " a health check of ACME".
Proof. reflexivity. Qed.
Example atoi_ex : Atoi "150" = 150%Z.
Proof. reflexivity. Qed.

Example count_ex :
  Part007.CountAllStatusItems
    ["intro"; "= Summary"; "|==="; "|*Category* |*Item Evaluated*";
     "|{set:cellbgcolor:#FF0000} Indicates Changes Required";
     "|Cluster Config"; "|<<A>>"; "|obs"; "|{set:cellbgcolor:#FF0000}";
     "|<<B>>"; "|obs"; "|{set:cellbgcolor:#A6B9BF}"; "|==="; "= Next"]
  = Part007.Build_StatusCounts 1 0 0 0 1.
Proof. reflexivity. Qed.

Example items_ex :
  Part007.ExtractRequiredChanges
    ["= Summary"; "// ------------------------ITEM START"; "|<<KubeadminUser>>";
     "|kubeadmin account still present"; "|{set:cellbgcolor:#FF0000}";
     "// ------------------------ITEM END";
     "// ------------------------ITEM START"; "|<<ClusterVersion>>"; "|ok";
     "|{set:cellbgcolor:#00FF00}"; "// ------------------------ITEM END"]
  = Slice ["KubeadminUser: kubeadmin account still present"].
Proof. reflexivity. Qed.
Example catscore_ex :
  Part007.ExtractCategoryScore ["x"; "Policy status 150% ok"] "Policy Governance" = 150%Z.
Proof. reflexivity. Qed.

(* ------------------------------------------------------------------ *)
(** ** C10: the upload file-type check *)

Lemma HasSuffix_spec (s suffix : string) :
  HasSuffix s suffix = true <-> exists p, s = p ++ suffix.
Proof.
  induction s as [|c s IH].
  - split.
    + intros H. exists "". destruct suffix; [reflexivity|discriminate H].
    + intros [[|c p] Hp]; [|discriminate]. destruct suffix; [reflexivity|discriminate].
  - cbn [HasSuffix]. rewrite orb_true_iff, String.eqb_eq, IH. split.
    + intros [<-|[p ->]].
      * exists "". reflexivity.
      * exists (String c p). reflexivity.
    + intros [[|c' p] Hp].
      * left. exact Hp.
      * right. exists p. simpl in Hp. injection Hp as _ Hp. exact Hp.
Qed.

(** C10: [IsValidAsciiDocFile] accepts exactly the names ending in the
    lowercase ".adoc" or ".asciidoc" (case-sensitive: "report.ADOC" is
    rejected). *)
Theorem C10_valid_file_iff_suffix :
  (forall filename : string,
     IsValidAsciiDocFile filename = true <->
     (exists p, filename = p ++ ".adoc") \/ (exists p, filename = p ++ ".asciidoc")) /\
  IsValidAsciiDocFile "report.ADOC" = false /\
  IsValidAsciiDocFile "report.md" = false.
Proof.
  split; [|split; reflexivity].
  intros filename. unfold IsValidAsciiDocFile.
  rewrite orb_true_iff, !HasSuffix_spec. reflexivity.
Qed.

(* ------------------------------------------------------------------ *)
(** ** C8: the description generator *)

Ltac z_cases :=
  repeat match goal with
  | |- context [Z.leb ?a ?b] => destruct (Z.leb_spec a b)
  | |- context [Z.ltb ?a ?b] => destruct (Z.ltb_spec a b)
  end; try lia; try reflexivity.

(** C8, as claimed, fails: on the empty file the engine's monitoring score
    is 0 and its generated description is the empty string, not the
    "requires significant improvements" sentence. *)
Lemma C8_counterexample :
  let s := ParseAsciiDocExecutiveSummary "" in
  ScoreMonitoring s = 0%Z /\ MonitoringDescription s = "" /\
  Part007.GenerateDescription "Monitoring" 0 <> spec_description "Monitoring" 0.
Proof. vm_compute. split; [reflexivity|split; [reflexivity|discriminate]]. Qed.

(** C8 (amended): both revisions of [GenerateDescription] are pure functions
    of the name and the score with the bands >= 90, >= 80, >= 70, >= 60, else;
    the asciidoc_helpers.go revision returns the "requires significant
    improvements" sentence for every score below 60, while the part_007
    revision used by [ParseAsciiDocExecutiveSummary] returns it only for
    0 < score < 60 and returns the empty string for a score <= 0. *)
Theorem C8_description_bands (categoryName : string) (score : Z) :
  AsciidocHelpers.GenerateDescription categoryName score = spec_description categoryName score /\
  Part007.GenerateDescription categoryName score =
    (if (0 <? score)%Z then spec_description categoryName score else "").
Proof.
  unfold AsciidocHelpers.GenerateDescription, Part007.GenerateDescription, spec_description.
  split; z_cases.
Qed.

(* ------------------------------------------------------------------ *)
(** ** C1: the overall score *)

Lemma OverallScore_ParseLines (lines : list string) :
  OverallScore (ParseLines lines) = overall_score (CountAllStatusItems lines).
Proof. reflexivity. Qed.

(** C1: the overall score is the weighted sum of the counted statuses
    (Required 0, Recommended 50, Advisory 80, NoChange 100) divided by the
    number of counted items (NotApplicable excluded), 0 when there is none;
    one item of each of the four counted statuses gives 57.5. *)
Theorem C1_overall_score_weighted_mean (lines : list string) :
  let c := CountAllStatusItems lines in
  let score := OverallScore (ParseLines lines) in
  ((0 < counted_items c)%nat ->
     score == inject_Z (Z.of_nat (weighted_sum c)) / inject_Z (Z.of_nat (counted_items c)))%Q /\
  (counted_items c = 0%nat -> score == 0)%Q /\
  (required c = 1%nat /\ recommended c = 1%nat /\ advisory c = 1%nat /\ noChange c = 1%nat ->
     score == 115 # 2)%Q.
Proof.
  cbv zeta. rewrite OverallScore_ParseLines.
  destruct (CountAllStatusItems lines) as [r rc a n na].
  unfold overall_score, weighted_sum, counted_items; cbn [required recommended advisory noChange].
  split; [|split].
  - intros Hpos. apply Nat.ltb_lt in Hpos. rewrite Hpos.
    replace (n * 100 + a * 80 + rc * 50)%nat with (0 * r + 50 * rc + 80 * a + 100 * n)%nat by lia.
    reflexivity.
  - intros H0. rewrite H0. reflexivity.
  - intros (-> & -> & -> & ->). vm_compute. reflexivity.
Qed.

(** One item of each counted status and one NotApplicable item in the
    Summary table: the overall score is 57.5. *)
Example C1_four_statuses_example :
  let lines := ["= Summary"; "|==="; "|*Category* |*Item Evaluated*";
                "|Cluster Config"; "|<<A>>"; "|{set:cellbgcolor:#FF0000}";
                "|<<B>>"; "|{set:cellbgcolor:#FEFE20}";
                "|<<C>>"; "|{set:cellbgcolor:#80E5FF}";
                "|<<D>>"; "|{set:cellbgcolor:#00FF00}";
                "|<<E>>"; "|{set:cellbgcolor:#A6B9BF}"; "|==="] in
  CountAllStatusItems lines = Build_StatusCounts 1 1 1 1 1 /\
  (OverallScore (ParseLines lines) == 115 # 2)%Q.
Proof. vm_compute. split; reflexivity. Qed.

(* ------------------------------------------------------------------ *)
(** ** The Summary section, by its lines *)

Ltac split_andb :=
  repeat match goal with
  | H : (_ && _) = true |- _ => apply andb_prop in H; destruct H
  | H : negb _ = true |- _ => apply negb_true_iff in H
  end.

Lemma index_of_take_until (p : string -> bool) (l : list string) :
  take_until p l = match index_of p l with Some k => firstn k l | None => l end.
Proof.
  induction l as [|x l IH]; simpl; [reflexivity|].
  destruct (p x); [reflexivity|]. rewrite IH.
  destruct (index_of p l); reflexivity.
Qed.

Lemma summaryLines_skip (l : string) (rest : list string) :
  is_summary_heading l = false -> summaryLines (l :: rest) = summaryLines rest.
Proof.
  intros H. unfold summaryLines, summaryStartIndex. cbn [index_of]. rewrite H.
  destruct (index_of is_summary_heading rest) as [st|]; cbn [option_map]; [|reflexivity].
  unfold summaryEndIndex. cbn [skipn List.length].
  destruct (index_of is_next_section (skipn (S st) rest)); f_equal; f_equal; lia.
Qed.

Lemma summaryLines_here (l : string) (rest : list string) :
  is_summary_heading l = true ->
  summaryLines (l :: rest) = Some (l :: take_until is_next_section rest).
Proof.
  intros H. unfold summaryLines, summaryStartIndex. cbn [index_of]. rewrite H.
  unfold summaryEndIndex. replace (skipn 1 (l :: rest)) with rest by reflexivity.
  rewrite index_of_take_until. rewrite Nat.sub_0_r.
  destruct (index_of is_next_section rest) as [k|]; [reflexivity|].
  cbn [List.length firstn skipn]. rewrite firstn_all. reflexivity.
Qed.

(** The index computation of the source and the line-based description of
    the section agree. *)
Lemma summaryLines_section_of (lines : list string) :
  summaryLines lines = section_of lines.
Proof.
  induction lines as [|l rest IH]; [reflexivity|].
  unfold section_of. cbn [drop_to_heading].
  destruct (is_summary_heading l) eqn:Hl.
  - apply summaryLines_here; exact Hl.
  - rewrite summaryLines_skip by exact Hl. exact IH.
Qed.

Lemma drop_to_heading_shape (lines : list string) :
  drop_to_heading lines = None \/
  exists h rest, drop_to_heading lines = Some (h :: rest) /\
                 exists pre, lines = (pre ++ h :: rest)%list.
Proof.
  induction lines as [|l lines IH]; [left; reflexivity|].
  cbn [drop_to_heading]. destruct (is_summary_heading l).
  - right. exists l, lines. split; [reflexivity|]. exists []. reflexivity.
  - destruct IH as [H|(h & rest & H & pre & Hpre)]; [left; exact H|].
    right. exists h, rest. split; [exact H|]. exists (l :: pre). rewrite Hpre. reflexivity.
Qed.

Lemma drop_to_heading_app (A B : list string) :
  drop_to_heading (A ++ B) =
  match drop_to_heading A with Some x => Some (x ++ B)%list | None => drop_to_heading B end.
Proof.
  induction A as [|a A IH]; [reflexivity|].
  cbn [drop_to_heading app]. destruct (is_summary_heading a); [reflexivity|exact IH].
Qed.

Lemma take_until_app (p : string -> bool) (X Y : list string) :
  take_until p (X ++ Y) =
  match index_of p X with Some _ => take_until p X | None => (X ++ take_until p Y)%list end.
Proof.
  induction X as [|x X IH]; [reflexivity|].
  cbn [take_until index_of app]. destruct (p x); [reflexivity|].
  rewrite IH. destruct (index_of p X); reflexivity.
Qed.

Lemma gray_row_not_heading (e : string) :
  gray_row e = true -> is_summary_heading e = false /\ is_next_section e = false.
Proof.
  intros H. unfold gray_row in H. split_andb.
  unfold is_summary_heading, is_next_section. rewrite H0. split; [|reflexivity].
  destruct (String.eqb_spec (TrimSpace e) "= Summary") as [E|]; [|reflexivity].
  rewrite E in H0. discriminate H0.
Qed.

Lemma drop_to_heading_gray (E B : list string) :
  forallb gray_row E = true -> drop_to_heading (E ++ B) = drop_to_heading B.
Proof.
  induction E as [|e E IH]; intros H; [reflexivity|].
  cbn [forallb] in H. apply andb_prop in H as [He HE].
  cbn [app drop_to_heading]. rewrite (proj1 (gray_row_not_heading e He)). exact (IH HE).
Qed.

Lemma take_until_gray (E B : list string) :
  forallb gray_row E = true ->
  take_until is_next_section (E ++ B) = (E ++ take_until is_next_section B)%list.
Proof.
  induction E as [|e E IH]; intros H; [reflexivity|].
  cbn [forallb] in H. apply andb_prop in H as [He HE].
  cbn [app take_until]. rewrite (proj2 (gray_row_not_heading e He)). rewrite (IH HE). reflexivity.
Qed.

(** Inserting gray rows anywhere in a document inserts them somewhere in its
    Summary section, or leaves the section unchanged. *)
Lemma section_of_insert_gray (A E B : list string) :
  forallb gray_row E = true ->
  (section_of (A ++ E ++ B) = None /\ section_of (A ++ B) = None) \/
  exists X Y, section_of (A ++ B) = Some (X ++ Y)%list /\
              (section_of (A ++ E ++ B) = Some (X ++ E ++ Y)%list \/
               section_of (A ++ E ++ B) = Some (X ++ Y)%list).
Proof.
  intros HE. unfold section_of. rewrite (drop_to_heading_app A (E ++ B)), (drop_to_heading_app A B).
  destruct (drop_to_heading_shape A) as [HA|(h & A2 & HA & _)]; rewrite HA; cbv iota beta.
  - rewrite drop_to_heading_gray by exact HE.
    destruct (drop_to_heading B) as [[|h rest]|].
    + left. split; reflexivity.
    + right. exists (h :: take_until is_next_section rest), []. rewrite app_nil_r.
      split; [reflexivity|right; reflexivity].
    + left. split; reflexivity.
  - right. cbn [app]. rewrite (take_until_app _ A2 B), (take_until_app _ A2 (E ++ B)).
    destruct (index_of is_next_section A2).
    + exists (h :: take_until is_next_section A2), []. rewrite app_nil_r.
      split; [reflexivity|right; reflexivity].
    + rewrite take_until_gray by exact HE.
      exists (h :: A2), (take_until is_next_section B). split; [reflexivity|left; reflexivity].
Qed.

(* ------------------------------------------------------------------ *)
(** ** C2: NotApplicable rows do not move the overall score *)

Ltac destruct_ifs :=
  repeat match goal with |- context [if ?b then _ else _] => destruct b end.

Lemma add_na_0 (c : StatusCounts) : add_na c 0 = c.
Proof. destruct c. unfold add_na; cbn. rewrite Nat.add_0_r. reflexivity. Qed.

Lemma add_na_add (c : StatusCounts) (m m' : nat) : add_na (add_na c m) m' = add_na c (m + m').
Proof. destruct c. unfold add_na; cbn. f_equal. lia. Qed.

Lemma count_color_add_na (line : string) (c : StatusCounts) (m : nat) :
  count_color line (add_na c m) = add_na (count_color line c) m.
Proof. destruct c. unfold count_color, add_na; cbn. destruct_ifs; reflexivity. Qed.

Lemma count_loop_add_na (ls : list string) (i t : bool) (c : StatusCounts) (m : nat) :
  count_loop ls i t (add_na c m) = add_na (count_loop ls i t c) m.
Proof.
  revert i t c. induction ls as [|l ls IH]; intros i t c; [reflexivity|].
  cbn [count_loop]. destruct_ifs; rewrite ?count_color_add_na; try apply IH; reflexivity.
Qed.

Lemma count_color_gray (e : string) (c : StatusCounts) :
  gray_row e = true -> count_color e c = add_na c 1.
Proof.
  intros H. unfold gray_row in H. split_andb.
  destruct c as [r rc a n na]. unfold count_color, add_na; cbn.
  repeat match goal with H : ?x = _ |- context [?x] => rewrite H end.
  f_equal. lia.
Qed.

Lemma count_loop_gray_prefix (E Y : list string) (i t : bool) (c : StatusCounts) :
  forallb gray_row E = true -> exists m, count_loop (E ++ Y) i t c = count_loop Y i t (add_na c m).
Proof.
  revert c. induction E as [|e E IH]; intros c HE.
  - exists 0. rewrite add_na_0. reflexivity.
  - cbn [forallb] in HE. apply andb_prop in HE as [He HE].
    pose proof He as Hg. unfold gray_row in Hg. split_andb.
    cbn [app count_loop].
    repeat match goal with H : ?x = false |- context [?x] => rewrite H end.
    cbn [andb negb].
    destruct (t && is_legend_row e).
    + apply IH; exact HE.
    + destruct ((t || i) && negb (Contains e "Description")).
      * rewrite (count_color_gray e c He).
        destruct (IH (add_na c 1) HE) as [m Hm]. exists (1 + m).
        rewrite Hm, add_na_add. reflexivity.
      * apply IH; exact HE.
Qed.

Lemma count_loop_insert (X E Y : list string) (i t : bool) (c : StatusCounts) :
  forallb gray_row E = true ->
  exists m, count_loop (X ++ E ++ Y) i t c = add_na (count_loop (X ++ Y) i t c) m.
Proof.
  intros HE. revert i t c. induction X as [|x X IH]; intros i t c.
  - destruct (count_loop_gray_prefix E Y i t c HE) as [m Hm]. exists m.
    cbn [app]. rewrite Hm. apply count_loop_add_na.
  - cbn [app count_loop]. destruct_ifs; try apply IH.
    exists 0. symmetry. apply add_na_0.
Qed.

Lemma CountAllStatusItems_insert_gray (A E B : list string) :
  forallb gray_row E = true ->
  exists m, CountAllStatusItems (A ++ E ++ B) = add_na (CountAllStatusItems (A ++ B)) m.
Proof.
  intros HE. unfold CountAllStatusItems. rewrite !summaryLines_section_of.
  destruct (section_of_insert_gray A E B HE) as [[H1 H2]|(X & Y & H1 & [H2|H2])];
    rewrite H1, H2.
  - exists 0. reflexivity.
  - apply count_loop_insert; exact HE.
  - exists 0. symmetry. apply add_na_0.
Qed.

Lemma NotApplicableCount_ParseLines (lines : list string) :
  NotApplicableCount (ParseLines lines) = notApplicable (CountAllStatusItems lines).
Proof. reflexivity. Qed.

(** C2: inserting any number of gray (NotApplicable) table rows anywhere in
    a document only raises the NotApplicable counter: the four counted
    statuses, hence the overall score, are unchanged. *)
Theorem C2_gray_rows_keep_overall_score (lines extra : list string) (k : nat)
    (Hgray : forallb gray_row extra = true) :
  let lines' := (firstn k lines ++ extra ++ skipn k lines)%list in
  exists m,
    CountAllStatusItems lines' = add_na (CountAllStatusItems lines) m /\
    OverallScore (ParseLines lines') = OverallScore (ParseLines lines) /\
    NotApplicableCount (ParseLines lines') = (NotApplicableCount (ParseLines lines) + m)%nat.
Proof.
  intros lines'.
  destruct (CountAllStatusItems_insert_gray (firstn k lines) extra (skipn k lines) Hgray)
    as [m Hm].
  rewrite firstn_skipn in Hm. exists m. split; [exact Hm|].
  unfold lines'. rewrite !OverallScore_ParseLines, !NotApplicableCount_ParseLines, Hm.
  destruct (CountAllStatusItems lines). split; reflexivity.
Qed.

Lemma C2_witness :
  forallb gray_row sample_gray_rows = true /\
  let lines' := (firstn 8 sample_table_doc ++ sample_gray_rows ++ skipn 8 sample_table_doc)%list in
  exists m,
    CountAllStatusItems lines' = add_na (CountAllStatusItems sample_table_doc) m /\
    OverallScore (ParseLines lines') = OverallScore (ParseLines sample_table_doc) /\
    NotApplicableCount (ParseLines lines') =
      (NotApplicableCount (ParseLines sample_table_doc) + m)%nat.
Proof.
  split; [reflexivity|].
  exact (C2_gray_rows_keep_overall_score sample_table_doc sample_gray_rows 8 eq_refl).
Defined.

(* ------------------------------------------------------------------ *)
(** ** C3: item blocks are not deduplicated *)

Lemma with_items_eta (st : ItemState) : with_items st (items st) = st.
Proof. destruct st; reflexivity. Qed.

Lemma items_with_items (st : ItemState) (i : slice) : items (with_items st i) = i.
Proof. destruct st; reflexivity. Qed.

Lemma with_items_twice (st : ItemState) (i j : slice) :
  with_items (with_items st i) j = with_items st j.
Proof. destruct st; reflexivity. Qed.

Lemma elems_slice_cat (s : slice) (es : list string) :
  slice_elems (slice_cat s es) = (slice_elems s ++ es)%list.
Proof. destruct es; simpl; [rewrite app_nil_r|]; reflexivity. Qed.

Lemma slice_cat_assoc (i : slice) (a b : list string) :
  slice_cat (slice_cat i a) b = slice_cat i (a ++ b)%list.
Proof. destruct a, b; simpl; rewrite ?app_nil_r, <- ?app_assoc; reflexivity. Qed.

(** One step appends to the items it is given exactly what it appends to
    an empty (nil) slice. *)
Lemma item_step_items (tag legend : string) (st : ItemState) (i : slice) (line : string) :
  item_step tag legend (with_items st i) line =
  with_items (item_step tag legend (with_items st NilSlice) line)
    (slice_cat i (slice_elems (items (item_step tag legend (with_items st NilSlice) line)))).
Proof. destruct st as [n o b its]. unfold with_items, item_step. simpl. destruct_ifs; reflexivity. Qed.

Lemma item_run_items (tag legend : string) (ls : list string) (st : ItemState) (i : slice) :
  item_run tag legend ls (with_items st i) =
  with_items (item_run tag legend ls (with_items st NilSlice))
    (slice_cat i (slice_elems (items (item_run tag legend ls (with_items st NilSlice))))).
Proof.
  unfold item_run. revert st i. induction ls as [|l ls IH]; intros st i.
  - cbn [fold_left]. rewrite with_items_twice. reflexivity.
  - cbn [fold_left].
    set (s1 := item_step tag legend (with_items st NilSlice) l).
    assert (Hs1 : items s1 = slice_cat NilSlice (slice_elems (items s1))).
    { pose proof (f_equal items (item_step_items tag legend st NilSlice l)) as H.
      exact H. }
    rewrite (item_step_items tag legend st i l). fold s1.
    rewrite (IH s1 (slice_cat i (slice_elems (items s1)))).
    assert (Hr : fold_left (item_step tag legend) ls s1 =
      with_items (fold_left (item_step tag legend) ls (with_items s1 NilSlice))
        (slice_cat (items s1)
           (slice_elems (items (fold_left (item_step tag legend) ls (with_items s1 NilSlice)))))).
    { rewrite <- (with_items_eta s1) at 1. apply IH. }
    rewrite Hr, with_items_twice.
    cbn [items with_items]. f_equal.
    rewrite elems_slice_cat, Hs1, elems_slice_cat, slice_cat_assoc. reflexivity.
Qed.

Lemma item_run_app (tag legend : string) (A B : list string) (st : ItemState) :
  item_run tag legend (A ++ B) st = item_run tag legend B (item_run tag legend A st).
Proof. unfold item_run. apply fold_left_app. Qed.

Lemma item_run_items_cat (tag legend : string) (ls : list string) (st : ItemState) :
  items (item_run tag legend ls st) =
  slice_cat (items st) (slice_elems (items (item_run tag legend ls (with_items st NilSlice)))).
Proof.
  rewrite <- (with_items_eta st) at 1. rewrite item_run_items. destruct (item_run _ _ _ _). reflexivity.
Qed.

(** A block opened by an ITEM START line appends, whatever the state before
    it, the entries it would append to an empty slice. *)
Lemma item_run_block (tag legend x : string) (X : list string) (st : ItemState) :
  Contains x ITEM_START = true ->
  items (item_run tag legend (x :: X) st) =
  slice_cat (items st) (chunk_entries tag legend (x :: X)).
Proof.
  intros Hx. unfold chunk_entries. unfold item_run. cbn [fold_left].
  assert (Hst : forall s, item_step tag legend s x = with_items (Build_ItemState "" "" true NilSlice) (items s)).
  { intros [n o b its]. unfold item_step. rewrite Hx. reflexivity. }
  rewrite !Hst. change (items item_init) with NilSlice.
  pose proof (item_run_items tag legend X (Build_ItemState "" "" true NilSlice) (items st)) as H1.
  unfold item_run in H1. rewrite H1, items_with_items. reflexivity.
Qed.

Lemma item_run_blocks (tag legend : string) (blocks : list (list string)) (st : ItemState) :
  forallb starts_item_block blocks = true ->
  slice_elems (items (item_run tag legend (concat blocks) st)) =
    (slice_elems (items st) ++ concat (map (chunk_entries tag legend) blocks))%list.
Proof.
  revert st. induction blocks as [|b bs IH]; intros st Hb; cbn [concat map].
  - rewrite app_nil_r. reflexivity.
  - cbn [forallb] in Hb. apply andb_prop in Hb as [Hb1 Hbs].
    rewrite item_run_app, (IH _ Hbs).
    destruct b as [|x X]; [discriminate|]. cbn [starts_item_block] in Hb1.
    rewrite (item_run_block tag legend x X st Hb1), elems_slice_cat, app_assoc. reflexivity.
Qed.

Lemma extract_items_blocks (tag legend : string) (lines pre : list string)
    (blocks : list (list string)) :
  summaryLines lines = Some (pre ++ concat blocks)%list ->
  forallb starts_item_block blocks = true ->
  slice_elems (extract_items tag legend lines) =
    (chunk_entries tag legend pre ++ concat (map (chunk_entries tag legend) blocks))%list.
Proof.
  intros Hsec Hb. unfold extract_items. rewrite Hsec, item_run_app.
  rewrite (item_run_blocks tag legend blocks _ Hb). reflexivity.
Qed.

(** C3 (as the code behaves): the item arrays are not deduplicated.  Cut the
    Summary section into a prefix [pre] followed by chunks that each open
    with an ITEM START line (an item block and the lines up to the next
    one).  Then each of [ExtractRequiredChanges], [ExtractRecommendedChanges]
    and [ExtractAdvisoryActions] returns the concatenation, in document
    order, of the entries each chunk yields on its own: a block contributes
    the same entries whatever blocks come before or after it, so two blocks
    for the same item and status are both kept. *)
Theorem C3_item_blocks_not_deduplicated (lines pre : list string) (blocks : list (list string))
    (Hsec : summaryLines lines = Some (pre ++ concat blocks)%list)
    (Hb : forallb starts_item_block blocks = true) :
  slice_elems (ExtractRequiredChanges lines) =
    (chunk_entries RED "Indicates Changes Required" pre ++
     concat (map (chunk_entries RED "Indicates Changes Required") blocks))%list /\
  slice_elems (ExtractRecommendedChanges lines) =
    (chunk_entries YELLOW "Indicates Changes Recommended" pre ++
     concat (map (chunk_entries YELLOW "Indicates Changes Recommended") blocks))%list /\
  slice_elems (ExtractAdvisoryActions lines) =
    (chunk_entries BLUE "No advise given" pre ++
     concat (map (chunk_entries BLUE "No advise given") blocks))%list.
Proof.
  split; [|split]; apply extract_items_blocks; assumption.
Qed.

(** On a section with two blocks for the same item and status but different
    observations, both blocks contribute their own entry. *)
Lemma C3_witness :
  summaryLines dup_name_doc = Some (["= Summary"] ++ concat [dup_item_block; other_obs_block])%list /\
  forallb starts_item_block [dup_item_block; other_obs_block] = true /\
  chunk_entries RED "Indicates Changes Required" ["= Summary"] = [] /\
  chunk_entries RED "Indicates Changes Required" dup_item_block =
    ["KubeadminUser: kubeadmin account still present"] /\
  chunk_entries RED "Indicates Changes Required" other_obs_block =
    ["KubeadminUser: kubeadmin password never rotated"] /\
  slice_elems (ExtractRequiredChanges dup_name_doc) =
    (chunk_entries RED "Indicates Changes Required" ["= Summary"] ++
     concat (map (chunk_entries RED "Indicates Changes Required") [dup_item_block; other_obs_block]))%list.
Proof.
  assert (H1 : summaryLines dup_name_doc =
    Some (["= Summary"] ++ concat [dup_item_block; other_obs_block])%list) by (vm_compute; reflexivity).
  assert (H2 : forallb starts_item_block [dup_item_block; other_obs_block] = true)
    by (vm_compute; reflexivity).
  split; [exact H1|split; [exact H2|]].
  split; [vm_compute; reflexivity|]. split; [vm_compute; reflexivity|].
  split; [vm_compute; reflexivity|].
  exact (proj1 (C3_item_blocks_not_deduplicated dup_name_doc ["= Summary"]
    [dup_item_block; other_obs_block] H1 H2)).
Defined.

(** C3: two identical Changes Required blocks give two identical entries,
    and two blocks for the same item with different observations give two
    entries, the earlier observation included. *)
Lemma C3_counterexample :
  ExtractRequiredChanges dup_block_doc =
    Slice ["KubeadminUser: kubeadmin account still present";
           "KubeadminUser: kubeadmin account still present"] /\
  ItemsRequired (ParseLines dup_block_doc) =
    Slice ["KubeadminUser: kubeadmin account still present";
           "KubeadminUser: kubeadmin account still present"] /\
  ItemsRequired (ParseLines dup_name_doc) =
    Slice ["KubeadminUser: kubeadmin account still present";
           "KubeadminUser: kubeadmin password never rotated"].
Proof. vm_compute. repeat split; reflexivity. Qed.

(* ------------------------------------------------------------------ *)
(** ** C4: an item block without a color tag *)

(** C4: an item block with no color tag is not discarded: its entry is
    returned by all three extractors and lands in all three item arrays of
    the summary. *)
Theorem C4_untagged_block_in_all_arrays :
  let s := ParseAsciiDocExecutiveSummary (join_lines untagged_doc) in
  ExtractRequiredChanges untagged_doc = Slice ["Foo: obs"] /\
  ExtractRecommendedChanges untagged_doc = Slice ["Foo: obs"] /\
  ExtractAdvisoryActions untagged_doc = Slice ["Foo: obs"] /\
  ItemsRequired s = Slice ["Foo: obs"] /\
  ItemsRecommended s = Slice ["Foo: obs"] /\
  ItemsAdvisory s = Slice ["Foo: obs"].
Proof. vm_compute. repeat split. Qed.

(* ------------------------------------------------------------------ *)
(** ** C5: ranges of the scores *)

Lemma digits_value_nonneg (s : string) (acc : Z) : (0 <= acc)%Z -> (0 <= digits_value s acc)%Z.
Proof.
  revert acc. induction s as [|c s IH]; intros acc H; cbn [digits_value]; [exact H|].
  apply IH. lia.
Qed.

Lemma Atoi_nonneg (ds : string) : (0 <= Atoi ds)%Z.
Proof.
  unfold Atoi. pose proof (digits_value_nonneg ds 0 (Z.le_refl 0)). lia.
Qed.

Lemma ExtractGeneralCategoryScore_nonneg (lines keywords : list string) :
  (0 <= ExtractGeneralCategoryScore lines keywords)%Z.
Proof.
  induction lines as [|l ls IH]; cbn [ExtractGeneralCategoryScore]; [lia|].
  destruct (existsb _ _); [|exact IH].
  destruct (FindPercent l); [apply Atoi_nonneg|exact IH].
Qed.

Lemma find_category_score_nonneg (name : string) (lines : list string) (z : Z) :
  find_category_score name lines = Some z -> (0 <= z)%Z.
Proof.
  induction lines as [|l ls IH]; cbn [find_category_score]; [discriminate|].
  destruct (FindCategory name l); [intros H; injection H as <-; apply Atoi_nonneg|exact IH].
Qed.

Lemma ExtractCategoryScore_nonneg (lines : list string) (name : string) :
  (0 <= ExtractCategoryScore lines name)%Z.
Proof.
  unfold ExtractCategoryScore. destruct (find_category_score name lines) eqn:E.
  - exact (find_category_score_nonneg name lines z E).
  - apply ExtractGeneralCategoryScore_nonneg.
Qed.

Lemma CalculateCategoryScore_bounds (r rc a n : nat) (name : string) :
  (0 <= CalculateCategoryScore r rc a n name <= 100)%Z.
Proof.
  unfold CalculateCategoryScore.
  destruct (Nat.eqb_spec (r + rc + a + n) 0) as [H|H]; [lia|].
  assert ((n * 100 + a * 80 + rc * 50) / (r + rc + a + n) <= 100)%nat
    by (apply Nat.Div0.div_le_upper_bound; lia).
  lia.
Qed.

Lemma score_or_extract_cases (score : Z) (lines : list string) (name : string) :
  (0 <= score <= 100)%Z ->
  (0 <= score_or_extract score lines name)%Z /\
  (score_or_extract score lines name <= 100 \/
   score_or_extract score lines name = ExtractCategoryScore lines name)%Z.
Proof.
  intros H. unfold score_or_extract. destruct (Z.eqb _ 0).
  - split; [apply ExtractCategoryScore_nonneg|right; reflexivity].
  - split; [lia|left; lia].
Qed.

Lemma overall_score_bounds (c : StatusCounts) : (0 <= overall_score c <= 100)%Q.
Proof.
  unfold overall_score. destruct (Nat.ltb_spec 0 (required c + recommended c + advisory c + noChange c)).
  - split.
    + apply Qle_shift_div_l; [unfold Qlt; simpl; lia|].
      unfold Qle; simpl. lia.
    + apply Qle_shift_div_r; [unfold Qlt; simpl; lia|].
      unfold Qle; simpl. lia.
  - split; discriminate.
Qed.

(** C5 (as the code behaves): the overall score is always in [0, 100] and
    [CalculateCategoryScore] always returns a value in [0, 100].  Each
    category score is the score computed from the counted items when that is
    not 0; when it is 0, it is the percentage read from the document by
    [ExtractCategoryScore], returned as read, without clamping (for
    monitoring: under Central Monitoring, else under Monitoring).  Every
    category score is non-negative. *)
Theorem C5_score_ranges (lines : list string) :
  let s := ParseLines lines in
  (0 <= OverallScore s <= 100)%Q /\
  (forall r rc a n name, 0 <= CalculateCategoryScore r rc a n name <= 100)%Z /\
  (let k := category_computed_score lines "Cluster Config" "Infrastructure Setup" true in
   ScoreInfra s = (if (k =? 0)%Z then ExtractCategoryScore lines "Infrastructure Setup" else k) /\
   (0 <= ScoreInfra s)%Z) /\
  (let k := category_computed_score lines "Security" "Policy Governance" true in
   ScoreGovernance s = (if (k =? 0)%Z then ExtractCategoryScore lines "Policy Governance" else k) /\
   (0 <= ScoreGovernance s)%Z) /\
  (let k := category_computed_score lines "Performance" "Compliance Benchmarking" false in
   ScoreCompliance s =
     (if (k =? 0)%Z then ExtractCategoryScore lines "Compliance Benchmarking" else k) /\
   (0 <= ScoreCompliance s)%Z) /\
  (let k := category_computed_score lines "Op-Ready" "Monitoring" false in
   let e := ExtractCategoryScore lines "Central Monitoring" in
   ScoreMonitoring s =
     (if (k =? 0)%Z then (if (e =? 0)%Z then ExtractCategoryScore lines "Monitoring" else e) else k) /\
   (0 <= ScoreMonitoring s)%Z) /\
  (let k := category_computed_score lines "Applications" "Build/Deploy Security" false in
   ScoreBuildSecurity s =
     (if (k =? 0)%Z then ExtractCategoryScore lines "Build/Deploy Security" else k) /\
   (0 <= ScoreBuildSecurity s)%Z).
Proof.
  intros s.
  split; [apply overall_score_bounds|].
  split; [intros; apply CalculateCategoryScore_bounds|].
  assert (Hcase : forall k name, (0 <= k)%Z ->
            (0 <= (if (k =? 0)%Z then ExtractCategoryScore lines name else k))%Z).
  { intros k name Hk. destruct (Z.eqb _ 0); [apply ExtractCategoryScore_nonneg|exact Hk]. }
  assert (Hk : forall key name b, (0 <= category_computed_score lines key name b)%Z)
    by (intros; apply CalculateCategoryScore_bounds).
  assert (Hone : forall (a b : Z), a = b -> (0 <= b)%Z -> a = b /\ (0 <= a)%Z)
    by (intros a b -> H; split; [reflexivity|exact H]).
  split; [cbv zeta; apply Hone; [reflexivity|apply Hcase, Hk]|].
  split; [cbv zeta; apply Hone; [reflexivity|apply Hcase, Hk]|].
  split; [cbv zeta; apply Hone; [reflexivity|apply Hcase, Hk]|].
  split; [|cbv zeta; apply Hone; [reflexivity|apply Hcase, Hk]].
  cbv zeta. apply Hone; [reflexivity|].
  destruct (Z.eqb _ 0); [|apply Hk].
  destruct (Z.eqb_spec (ExtractCategoryScore lines "Central Monitoring") 0);
    apply ExtractCategoryScore_nonneg.
Qed.

(** C5: a percentage above 100 next to a category keyword is returned as the
    category score. *)
Lemma C5_counterexample :
  ScoreGovernance (ParseAsciiDocExecutiveSummary "Policy Governance: 150%") = 150%Z.
Proof. vm_compute. reflexivity. Qed.

(* ------------------------------------------------------------------ *)
(** ** C6: documents with no recognized item *)

(** C6: on the empty file, and on a Summary section without items, the
    overall score is 0 and the three item arrays are nil slices, serialised
    as JSON null: the [[]string{}] values set at lines 193-195 are replaced
    by the nil results of the three extractors at lines 311-313. *)
Theorem C6_no_items_nil_arrays :
  let s := ParseAsciiDocExecutiveSummary "" in
  let s' := ParseAsciiDocExecutiveSummary "= Summary" in
  (OverallScore s == 0)%Q /\
  ItemsRequired s = NilSlice /\ ItemsRecommended s = NilSlice /\ ItemsAdvisory s = NilSlice /\
  (OverallScore s' == 0)%Q /\
  ItemsRequired s' = NilSlice /\ ItemsRecommended s' = NilSlice /\ ItemsAdvisory s' = NilSlice.
Proof. vm_compute. repeat split. Qed.

(* ------------------------------------------------------------------ *)
(** ** C7: documents without a Summary heading *)

Lemma index_of_none (p : string -> bool) (lines : list string) :
  forallb (fun l => negb (p l)) lines = true -> index_of p lines = None.
Proof.
  induction lines as [|l ls IH]; cbn [forallb index_of]; [reflexivity|].
  intros H. apply andb_prop in H as [H1 H2]. apply negb_true_iff in H1.
  rewrite H1, (IH H2). reflexivity.
Qed.

Lemma summaryLines_no_heading (lines : list string) :
  forallb (fun l => negb (is_summary_heading l)) lines = true -> summaryLines lines = None.
Proof.
  intros H. unfold summaryLines, summaryStartIndex. rewrite (index_of_none _ _ H). reflexivity.
Qed.

(** C7 (as the code behaves): without a line reading [= Summary] there is no
    degraded mode; every counter of [CountAllStatusItems] and
    [CountNoChangeItems] is 0, the three extractors return nil, and the
    summary has overall score 0 and no items. *)
Theorem C7_no_summary_zero_counts (lines : list string)
    (Hno : forallb (fun l => negb (is_summary_heading l)) lines = true) :
  CountAllStatusItems lines = zero_counts /\
  CountNoChangeItems lines = 0 /\
  ExtractRequiredChanges lines = NilSlice /\
  ExtractRecommendedChanges lines = NilSlice /\
  ExtractAdvisoryActions lines = NilSlice /\
  (OverallScore (ParseLines lines) == 0)%Q /\
  ItemsRequired (ParseLines lines) = NilSlice /\
  ItemsRecommended (ParseLines lines) = NilSlice /\
  ItemsAdvisory (ParseLines lines) = NilSlice /\
  NoChangeCount (ParseLines lines) = 0 /\
  NotApplicableCount (ParseLines lines) = 0.
Proof.
  pose proof (summaryLines_no_heading lines Hno) as Hs.
  assert (Hc : CountAllStatusItems lines = zero_counts)
    by (unfold CountAllStatusItems; rewrite Hs; reflexivity).
  assert (Hn : CountNoChangeItems lines = 0)
    by (unfold CountNoChangeItems; rewrite Hs; reflexivity).
  assert (He : forall tag legend, extract_items tag legend lines = NilSlice)
    by (intros; unfold extract_items; rewrite Hs; reflexivity).
  unfold ParseLines, ExtractRequiredChanges, ExtractRecommendedChanges, ExtractAdvisoryActions.
  cbn [OverallScore ItemsRequired ItemsRecommended ItemsAdvisory NoChangeCount NotApplicableCount].
  rewrite Hc, Hn, !He. repeat split.
Qed.

Lemma C7_witness :
  forallb (fun l => negb (is_summary_heading l)) no_heading_doc = true /\
  CountAllStatusItems no_heading_doc = zero_counts /\
  ExtractRequiredChanges no_heading_doc = NilSlice.
Proof.
  assert (H : forallb (fun l => negb (is_summary_heading l)) no_heading_doc = true)
    by (vm_compute; reflexivity).
  destruct (C7_no_summary_zero_counts no_heading_doc H) as (H1 & _ & H2 & _).
  split; [exact H|split; [exact H1|exact H2]].
Defined.

(** C7: a document without a Summary heading whose table has a Changes
    Required row yields no count and no item, although a scan of the whole
    document by the same loop counts that row. *)
Lemma C7_counterexample :
  CountAllStatusItems no_heading_doc = zero_counts /\
  ExtractRequiredChanges no_heading_doc = NilSlice /\
  count_loop no_heading_doc false false zero_counts = Build_StatusCounts 1 0 0 0 0.
Proof. vm_compute. repeat split. Qed.

(* ------------------------------------------------------------------ *)
(** ** C9: the cluster and customer names *)

Lemma first_hit_cluster_nonempty (lines : list string) (n : string) :
  first_hit cluster_hit lines = Some n -> nonempty n = true.
Proof.
  induction lines as [|l ls IH]; cbn [first_hit]; [discriminate|].
  unfold cluster_hit. destruct (Contains l "cluster"); [|exact IH].
  destruct (FindCluster l) as [[g1 g2]|]; [|exact IH].
  destruct (nonempty g1) eqn:E1; [intros H; injection H as <-; exact E1|].
  destruct (nonempty g2) eqn:E2; [intros H; injection H as <-; exact E2|exact IH].
Qed.

Lemma cluster_hit_eq (l : string) :
  cluster_hit l =
  if Contains l "cluster" then
    match FindCluster l with
    | Some (g1, g2) => if nonempty g1 then Some g1 else if nonempty g2 then Some g2 else None
    | None => None
    end
  else None.
Proof. reflexivity. Qed.

Lemma customer_hit_eq (l : string) :
  customer_hit l =
  if Contains l "conducted" && Contains l "health check" then
    option_map TrimSpace (FindCustomer l)
  else None.
Proof. reflexivity. Qed.

Ltac names_ind lines :=
  let l := fresh "l" in let ls := fresh "ls" in let IH := fresh "IH" in
  induction lines as [|l ls IH]; [reflexivity|];
  cbn [first_hit AsciidocHelpers.ExtractClusterName AsciidocHelpers.ExtractCustomerName
       Part007.ExtractClusterName Part007.ExtractCustomerName];
  rewrite ?cluster_hit_eq, ?customer_hit_eq;
  repeat match goal with
         | |- context [if ?b then _ else _] => destruct b
         | |- context [match FindCluster ?x with _ => _ end] =>
             let g1 := fresh "g" in let g2 := fresh "g" in destruct (FindCluster x) as [[g1 g2]|]
         | |- context [match FindCustomer ?x with _ => _ end] => destruct (FindCustomer x)
         end; cbn [option_map]; try reflexivity; exact IH.

Lemma helpers_cluster_name (lines : list string) :
  AsciidocHelpers.ExtractClusterName lines =
    match first_hit cluster_hit lines with Some n => n | None => "OpenShift Cluster" end.
Proof. names_ind lines. Qed.

Lemma helpers_customer_name (lines : list string) :
  AsciidocHelpers.ExtractCustomerName lines =
    match first_hit customer_hit lines with Some n => n | None => "Your Company" end.
Proof. names_ind lines. Qed.

Lemma part007_cluster_name (lines : list string) :
  Part007.ExtractClusterName lines =
    match first_hit cluster_hit lines with Some n => n | None => "" end.
Proof. names_ind lines. Qed.

Lemma part007_customer_name (lines : list string) :
  Part007.ExtractCustomerName lines =
    match first_hit customer_hit lines with Some n => n | None => "" end.
Proof. names_ind lines. Qed.

(** C9 (as the code behaves): the [asciidoc_helpers.go] extractors return the
    first name found, else the literal [OpenShift Cluster] / [Your Company],
    and the cluster name they return is never empty; the part_007 extractors
    called by [ParseAsciiDocExecutiveSummary] return the same first name found,
    else the empty string, and the summary carries their result. *)
Theorem C9_name_fallbacks (lines : list string) :
  AsciidocHelpers.ExtractClusterName lines =
    match first_hit cluster_hit lines with Some n => n | None => "OpenShift Cluster" end /\
  AsciidocHelpers.ExtractCustomerName lines =
    match first_hit customer_hit lines with Some n => n | None => "Your Company" end /\
  Part007.ExtractClusterName lines =
    match first_hit cluster_hit lines with Some n => n | None => "" end /\
  Part007.ExtractCustomerName lines =
    match first_hit customer_hit lines with Some n => n | None => "" end /\
  AsciidocHelpers.ExtractClusterName lines <> "" /\
  ClusterName (ParseLines lines) = Part007.ExtractClusterName lines /\
  CustomerName (ParseLines lines) = Part007.ExtractCustomerName lines.
Proof.
  pose proof (helpers_cluster_name lines) as Hc.
  split; [exact Hc|].
  split; [apply helpers_customer_name|].
  split; [apply part007_cluster_name|].
  split; [apply part007_customer_name|].
  split; [|split; reflexivity].
  rewrite Hc. destruct (first_hit cluster_hit lines) as [n|] eqn:E; [|discriminate].
  intros Hn. pose proof (first_hit_cluster_nonempty lines n E) as Hne.
  rewrite Hn in Hne. discriminate.
Qed.

(** C9: with no cluster or customer line the summary names are empty, and
    even the literal-fallback customer extractor can return the empty
    string. *)
Lemma C9_counterexample :
  ClusterName (ParseAsciiDocExecutiveSummary "") = "" /\
  CustomerName (ParseAsciiDocExecutiveSummary "") = "" /\
  AsciidocHelpers.ExtractCustomerName blank_customer_doc = "".
Proof. vm_compute. repeat split. Qed.

(* ================================================================== *)
(** * Further properties of the code *)

(* ------------------------------------------------------------------ *)
(** ** [scanDocumentForKeyItems] *)

Lemma scan_loop_spec (ks ls : list string) (items : slice) (seen : gset string) :
  NoDup (slice_elems items) ->
  (forall x, x ∈ seen <-> In x (slice_elems items)) ->
  NoDup (slice_elems (scan_loop ks ls items seen)) /\
  (forall x, In x (slice_elems (scan_loop ks ls items seen)) <->
     In x (slice_elems items) \/
     exists l, In l ls /\ key_line ks l = true /\ clean_key_line l = x).
Proof.
  revert items seen. induction ls as [|l ls IH]; intros items seen Hnd Hseen; cbn [scan_loop].
  - split; [exact Hnd|]. intros x. split; [left; exact H|].
    intros [H|(l & [] & _)]; exact H.
  - destruct (key_line ks l) eqn:Hk.
    + case_bool_decide as Hin.
      * destruct (IH items seen Hnd Hseen) as [IH1 IH2]. split; [exact IH1|].
        intros x. rewrite IH2. split.
        -- intros [H|(l' & H1 & H2 & H3)]; [left; exact H|right; exists l'; auto with datatypes].
        -- intros [H|(l' & [<-|H1] & H2 & H3)]; [left; exact H| |right; exists l'; auto].
           left. apply Hseen. rewrite <- H3. exact Hin.
      * assert (Hnd' : NoDup (slice_elems (slice_append items (clean_key_line l)))).
        { cbn [slice_append slice_elems]. apply NoDup_app. split; [exact Hnd|split].
          - intros y Hy Hy'. apply list_elem_of_singleton in Hy'. subst y.
            apply Hin, Hseen, list_elem_of_In, Hy.
          - apply NoDup_singleton. }
        assert (Hseen' : forall x, x ∈ ({[clean_key_line l]} ∪ seen : gset string) <->
                   In x (slice_elems (slice_append items (clean_key_line l)))).
        { intros x. cbn [slice_append slice_elems]. rewrite elem_of_union, elem_of_singleton, Hseen.
          rewrite in_app_iff. cbn [In].
          split; [intros [->|H]; auto|intros [H|[<-|[]]]; auto]. }
        destruct (IH _ _ Hnd' Hseen') as [IH1 IH2]. split; [exact IH1|].
        intros x. rewrite IH2. cbn [slice_append slice_elems]. rewrite in_app_iff. cbn [In].
        split.
        -- intros [[H|[H|[]]]|(l' & H1 & H2 & H3)];
             [left; exact H|right; exists l; auto|right; exists l'; auto with datatypes].
        -- intros [H|(l' & [<-|H1] & H2 & H3)]; [left; left; exact H|left; right; left; exact H3|].
           right. exists l'. auto.
    + destruct (IH items seen Hnd Hseen) as [IH1 IH2]. split; [exact IH1|].
      intros x. rewrite IH2. split.
      * intros [H|(l' & H1 & H2 & H3)]; [left; exact H|right; exists l'; auto with datatypes].
      * intros [H|(l' & [<-|H1] & H2 & H3)]; [left; exact H|congruence|right; exists l'; auto].
Qed.

(** [scanDocumentForKeyItems lines keywords] returns each cleaned-up line
    that mentions a keyword (case-insensitively) exactly once: the result
    has no duplicates, and a string is in it iff it is the clean-up of some
    line containing a keyword. *)
Theorem scanDocumentForKeyItems_exact (lines keywords : list string) :
  NoDup (slice_elems (scanDocumentForKeyItems lines keywords)) /\
  (forall x, In x (slice_elems (scanDocumentForKeyItems lines keywords)) <->
     exists l, In l lines /\ key_line keywords l = true /\ clean_key_line l = x).
Proof.
  destruct (scan_loop_spec keywords lines NilSlice ∅) as [H1 H2].
  - constructor.
  - intros x. split; [intros H; apply elem_of_empty in H; contradiction|intros []].
  - split; [exact H1|]. intros x. rewrite H2. cbn [slice_elems In]. tauto.
Qed.

(* ------------------------------------------------------------------ *)
(** ** [extractItemsFromSection] and [enhancedItemExtraction] *)

Lemma slice_len_append (s : slice) (x : string) : slice_len (slice_append s x) = S (slice_len s).
Proof. unfold slice_len, slice_append. cbn [slice_elems]. rewrite length_app. cbn. lia. Qed.

Lemma section_items_loop_len (f : string -> bool) (ls : list string) (items : slice) :
  (slice_len (section_items_loop f ls items) <= slice_len items + List.length ls)%nat.
Proof.
  revert items. induction ls as [|l ls IH]; intros items; cbn [section_items_loop List.length]; [lia|].
  destruct (String.eqb _ _); [specialize (IH items); lia|].
  destruct (HasPrefix _ _); [lia|].
  destruct (f _); [specialize (IH (slice_append items (clean_item_line (TrimSpace l))));
                   rewrite slice_len_append in IH; lia|specialize (IH items); lia].
Qed.

(** [extractItemsFromSection lines startIdx maxLines isItemLine] returns at
    most [maxLines - 1] items, and no more than there are lines after
    [startIdx]. *)
Theorem extractItemsFromSection_bound (lines : list string) (startIdx maxLines : nat)
    (isItemLine : string -> bool) :
  (slice_len (extractItemsFromSection lines startIdx maxLines isItemLine) <= maxLines - 1)%nat /\
  (slice_len (extractItemsFromSection lines startIdx maxLines isItemLine) <=
     List.length lines - S startIdx)%nat.
Proof.
  unfold extractItemsFromSection.
  set (endIdx := ReportParser.min (startIdx + maxLines) (List.length lines)).
  assert (He : (endIdx <= startIdx + maxLines /\ endIdx <= List.length lines)%nat).
  { unfold endIdx, ReportParser.min. destruct (Nat.ltb_spec (startIdx + maxLines) (List.length lines)); lia. }
  pose proof (section_items_loop_len isItemLine
    (firstn (endIdx - S startIdx) (skipn (S startIdx) lines)) NilSlice) as H.
  rewrite length_firstn in H. cbn [slice_len slice_elems List.length] in H. lia.
Qed.

Lemma scan_nonempty (lines keywords : list string) (l : string) :
  In l lines -> key_line keywords l = true ->
  (0 < slice_len (scanDocumentForKeyItems lines keywords))%nat.
Proof.
  intros Hl Hk. destruct (scanDocumentForKeyItems_exact lines keywords) as [_ H].
  assert (Hin : In (clean_key_line l) (slice_elems (scanDocumentForKeyItems lines keywords)))
    by (apply H; exists l; auto).
  unfold slice_len. destruct (slice_elems _); [destruct Hin|cbn; lia].
Qed.

(** If some line mentions (case-insensitively) one of the keywords that
    [enhancedItemExtraction] scans for, the corresponding list it returns is
    non-empty: either the marked sections gave items, or the keyword scan
    finds that line. *)
Theorem enhancedItemExtraction_keyword_nonempty (lines : list string) :
  ((exists l, In l lines /\ key_line required_keywords l = true) ->
   (0 < slice_len (fst (fst (enhancedItemExtraction lines))))%nat) /\
  ((exists l, In l lines /\ key_line recommended_keywords l = true) ->
   (0 < slice_len (snd (fst (enhancedItemExtraction lines))))%nat).
Proof.
  unfold enhancedItemExtraction.
  destruct (enhanced_loop lines lines 0 NilSlice NilSlice NilSlice) as [[req rec] adv].
  cbn [fst snd]. split; intros (l & Hl & Hk).
  - destruct (Nat.eqb_spec (slice_len req) 0); [eapply scan_nonempty; eauto|lia].
  - destruct (Nat.eqb_spec (slice_len rec) 0); [eapply scan_nonempty; eauto|lia].
Qed.

(* ------------------------------------------------------------------ *)
(** ** [calculateFallbackScore] *)

Lemma fallback_loop_inv (ls : list string) (t : Z) (c : nat) :
  (0 <= t <= 100 * Z.of_nat c)%Z ->
  let '(t', c') := fallback_loop ls t c in (0 <= t' <= 100 * Z.of_nat c')%Z.
Proof.
  revert t c. induction ls as [|l ls IH]; intros t c H; cbn [fallback_loop]; [exact H|].
  destruct (negb _ && _); [|apply IH; exact H].
  destruct (FindPercent l) as [ds|]; [|apply IH; exact H].
  destruct ((0 <? digits_value ds 0)%Z && (digits_value ds 0 <=? 100)%Z) eqn:E; apply IH; [|exact H].
  apply andb_prop in E as [E1 E2]. apply Z.ltb_lt in E1. apply Z.leb_le in E2. lia.
Qed.

(** [calculateFallbackScore] always returns a value in [0, 100]: the mean of
    the percentages in (0, 100] it finds, else the weighted status score,
    else the default 75. *)
Theorem calculateFallbackScore_bounds (lines : list string) :
  (0 <= calculateFallbackScore lines <= 100)%Q.
Proof.
  unfold calculateFallbackScore.
  pose proof (fallback_loop_inv lines 0 0 ltac:(lia)) as Hinv.
  destruct (fallback_loop lines 0 0) as [t c].
  destruct (Nat.ltb_spec 0 c).
  - split.
    + apply Qle_shift_div_l; [unfold Qlt; simpl; lia|]. unfold Qle; simpl. lia.
    + apply Qle_shift_div_r; [unfold Qlt; simpl; lia|]. unfold Qle; simpl. lia.
  - destruct (Nat.eqb_spec (required (CountAllStatusItems lines) + recommended (CountAllStatusItems lines) +
                            advisory (CountAllStatusItems lines) + noChange (CountAllStatusItems lines)) 0).
    + split; discriminate.
    + split.
      * apply Qle_shift_div_l; [unfold Qlt; simpl; lia|]. unfold Qle; simpl. lia.
      * apply Qle_shift_div_r; [unfold Qlt; simpl; lia|]. unfold Qle; simpl. lia.
Qed.

(* ------------------------------------------------------------------ *)
(** ** [extractItemsByColorCode] *)

Lemma nonempty_app_l (a b : string) : nonempty a = true -> nonempty (a ++ b) = true.
Proof. destruct a; [discriminate|reflexivity]. Qed.

Lemma nonempty_app_r (a b : string) : nonempty b = true -> nonempty (a ++ b) = true.
Proof. destruct a; [exact id|reflexivity]. Qed.

Lemma color_code_loop_spec (lines : list string) (code ty : string) (ls : list string)
    (i d : nat) (items : slice) :
  Forall (fun x => nonempty x = true) (slice_elems items) ->
  slice_len (color_code_loop lines code ty ls i (Nat.odd d) items) =
    (slice_len items + colored_rows code ls d)%nat /\
  Forall (fun x => nonempty x = true)
    (slice_elems (color_code_loop lines code ty ls i (Nat.odd d) items)).
Proof.
  revert i d items. induction ls as [|l ls IH]; intros i d items Hf;
    cbn [color_code_loop colored_rows]; [split; [lia|exact Hf]|].
  destruct (Contains l "|===").
  - replace (negb (Nat.odd d)) with (Nat.odd (S d))
      by (rewrite Nat.odd_succ, <- Nat.negb_odd; reflexivity).
    apply IH; exact Hf.
  - destruct (Nat.odd d) eqn:Hd; cbn [negb andb].
    + destruct (Contains l code).
      * match goal with |- context [color_code_loop _ _ _ ls (S i) true (slice_append items ?x)] =>
          assert (Hx : nonempty x = true) end.
        { repeat match goal with |- context [if ?b then _ else _] => destruct b eqn:? end;
            try (apply nonempty_app_l; assumption); try assumption.
          apply nonempty_app_r. reflexivity. }
        match goal with |- context [color_code_loop _ _ _ ls (S i) true (slice_append items ?x)] =>
          destruct (IH (S i) d (slice_append items x)) as [H1 H2] end.
        { unfold slice_append. cbn [slice_elems]. apply Forall_app. split; [exact Hf|].
          constructor; [exact Hx|constructor]. }
        rewrite Hd, slice_len_append in H1. rewrite Hd in H2. split; [lia|exact H2].
      * destruct (IH (S i) d items Hf) as [H1 H2]. rewrite Hd in H1, H2.
        split; [lia|exact H2].
    + destruct (IH (S i) d items Hf) as [H1 H2]. rewrite Hd in H1, H2.
      split; [lia|exact H2].
Qed.

(** [extractItemsByColorCode lines colorCode itemType] returns one item per
    line that carries [colorCode] inside a [|===] table (after an odd number
    of delimiter lines), and none of its items is the empty string. *)
Theorem extractItemsByColorCode_rows (lines : list string) (colorCode itemType : string) :
  slice_len (extractItemsByColorCode lines colorCode itemType) = colored_rows colorCode lines 0 /\
  Forall (fun x => nonempty x = true) (slice_elems (extractItemsByColorCode lines colorCode itemType)).
Proof.
  unfold extractItemsByColorCode.
  exact (color_code_loop_spec lines colorCode itemType lines 0 0 NilSlice ltac:(constructor)).
Qed.

(* ------------------------------------------------------------------ *)
(** ** [CalculateScoreFromStatusCounts] of [asciidoc_helpers.go] *)

Lemma tally_color_ok (code : string) (t : AsciidocHelpers.Tally) :
  tally_ok t -> tally_ok (AsciidocHelpers.tally_color code t).
Proof.
  destruct t as [tot r rc a n na]. unfold tally_ok, AsciidocHelpers.tally_color. cbn.
  intros H. repeat match goal with |- context [if ?b then _ else _] => destruct b end; cbn; lia.
Qed.

Lemma tally_loop_ok (ls : list string) (t : AsciidocHelpers.Tally) :
  tally_ok t -> tally_ok (AsciidocHelpers.tally_loop ls t).
Proof.
  revert t. induction ls as [|l ls IH]; intros t H; cbn [AsciidocHelpers.tally_loop]; [exact H|].
  destruct (FindStatusCell l); [|apply IH; exact H].
  destruct (_ || _); apply IH; [exact H|apply tally_color_ok; exact H].
Qed.

(** [CalculateScoreFromStatusCounts] of [asciidoc_helpers.go] always returns
    a value in [0, 100], in each of its branches (color-count fallback,
    default 75, all items N/A, weighted mean). *)
Theorem helpers_CalculateScoreFromStatusCounts_bounds (lines : list string) :
  (0 <= AsciidocHelpers.CalculateScoreFromStatusCounts lines <= 100)%Q.
Proof.
  unfold AsciidocHelpers.CalculateScoreFromStatusCounts.
  pose proof (tally_loop_ok lines AsciidocHelpers.zero_tally ltac:(unfold tally_ok; cbn; lia)) as Hok.
  destruct (AsciidocHelpers.tally_loop lines AsciidocHelpers.zero_tally) as [tot r rc a n na].
  unfold tally_ok in Hok; cbn in Hok |- *.
  destruct (Nat.eqb_spec tot 0).
  - destruct (AsciidocHelpers.CountStatusByColor lines) as [[x y] z].
    destruct (Nat.eqb_spec (x + y + z + n) 0); [split; discriminate|].
    split.
    + apply Qle_shift_div_l; [unfold Qlt; simpl; lia|]. unfold Qle; simpl. lia.
    + apply Qle_shift_div_r; [unfold Qlt; simpl; lia|]. unfold Qle; simpl. lia.
  - destruct (Nat.eqb_spec (tot - na) 0); [split; discriminate|].
    split.
    + apply Qle_shift_div_l; [unfold Qlt; simpl; lia|]. unfold Qle; simpl. lia.
    + apply Qle_shift_div_r; [unfold Qlt; simpl; lia|]. unfold Qle; simpl. lia.
Qed.

(* ------------------------------------------------------------------ *)
(** ** [strings.TrimSpace] and [ExtractIssuesBySeverity] *)

Lemma all_space_TrimLeftSpace (s : string) : all_space (TrimLeftSpace s) = all_space s.
Proof.
  induction s as [|c s IH]; [reflexivity|]. cbn [TrimLeftSpace all_space].
  destruct (IsSpace c) eqn:Hc; [exact IH|cbn; rewrite Hc; reflexivity].
Qed.

Lemma TrimLeftSpace_all_space (s : string) :
  all_space (TrimLeftSpace s) = true -> TrimLeftSpace s = "".
Proof.
  induction s as [|c s IH]; [reflexivity|]. cbn [TrimLeftSpace].
  destruct (IsSpace c) eqn:Hc; [exact IH|cbn; rewrite Hc; discriminate].
Qed.

Lemma all_space_rev_string (s acc : string) :
  all_space (rev_string s acc) = all_space s && all_space acc.
Proof.
  revert acc. induction s as [|c s IH]; intros acc; [reflexivity|].
  cbn [rev_string all_space]. rewrite IH. cbn [all_space].
  destruct (IsSpace c), (all_space s), (all_space acc); reflexivity.
Qed.

Lemma rev_string_empty (s acc : string) : rev_string s acc = "" -> s = "" /\ acc = "".
Proof.
  revert acc. induction s as [|c s IH]; intros acc H; [split; [reflexivity|exact H]|].
  cbn [rev_string] in H. destruct (IH _ H) as [_ H']. discriminate.
Qed.

(** [strings.TrimSpace s] is empty exactly when [s] is white space only. *)
Lemma TrimSpace_empty (s : string) : TrimSpace s = "" <-> all_space s = true.
Proof.
  unfold TrimSpace. split.
  - intros H. apply rev_string_empty in H as [H _].
    pose proof (f_equal all_space H) as H1. cbn [all_space] in H1.
    rewrite all_space_TrimLeftSpace, all_space_rev_string, all_space_TrimLeftSpace in H1.
    rewrite andb_true_r in H1. exact H1.
  - intros H. rewrite (TrimLeftSpace_all_space s) by (rewrite all_space_TrimLeftSpace; exact H).
    reflexivity.
Qed.

Lemma nonempty_TrimSpace (s : string) : nonempty (TrimSpace s) = negb (all_space s).
Proof.
  unfold nonempty. destruct (String.eqb_spec (TrimSpace s) "") as [H|H];
    destruct (all_space s) eqn:E; try reflexivity.
  - apply TrimSpace_empty in H. congruence.
  - exfalso. apply H, TrimSpace_empty, E.
Qed.

Lemma cut_at_all_space (sep : ascii) (s : string) :
  IsSpace sep = false -> all_space s = true -> cut_at sep s = None.
Proof.
  intros Hsep. induction s as [|c s IH]; intros H; [reflexivity|].
  cbn [all_space] in H. apply andb_prop in H as [Hc H]. cbn [cut_at].
  destruct (Ascii.eqb_spec c sep) as [->|_]; [congruence|]. rewrite IH by exact H. reflexivity.
Qed.

Lemma issues_loop_spec (severities ls : list string) (items : slice) :
  Forall (fun x => nonempty x = true) (slice_elems items) ->
  slice_len (AsciidocHelpers.issues_loop severities ls items) =
    (slice_len items +
     List.length (List.filter (fun l => key_line severities l && nonempty (TrimSpace l)) ls))%nat /\
  Forall (fun x => nonempty x = true) (slice_elems (AsciidocHelpers.issues_loop severities ls items)).
Proof.
  revert items. induction ls as [|l ls IH]; intros items Hf;
    cbn [AsciidocHelpers.issues_loop List.filter List.length]; [split; [lia|exact Hf]|].
  assert (Happ : forall x, nonempty x = true ->
    Forall (fun x => nonempty x = true) (slice_elems (slice_append items x))).
  { intros x Hx. unfold slice_append. cbn [slice_elems]. apply Forall_app.
    split; [exact Hf|constructor; [exact Hx|constructor]]. }
  unfold key_line in IH |- *. cbv zeta.
  destruct (existsb _ severities) eqn:Hk; cbn [andb];
    [|destruct (IH items Hf) as [H1 H2]; split; [lia|exact H2]].
  destruct ((1 <? List.length (SplitN2 l ":"%char))%nat && nonempty (TrimSpace (nth 1 (SplitN2 l ":"%char) ""))) eqn:Hp.
  - assert (Hl : nonempty (TrimSpace l) = true).
    { rewrite nonempty_TrimSpace. destruct (all_space l) eqn:Ha; [|reflexivity].
      unfold SplitN2 in Hp. rewrite cut_at_all_space in Hp by (reflexivity || exact Ha).
      discriminate. }
    apply andb_prop in Hp as [_ Hp]. rewrite Hl.
    destruct (IH _ (Happ _ Hp)) as [H1 H2]. rewrite slice_len_append in H1.
    cbn [List.length]. split; [lia|exact H2].
  - destruct (nonempty (TrimSpace l)) eqn:Hl.
    + destruct (IH _ (Happ _ Hl)) as [H1 H2]. rewrite slice_len_append in H1.
      cbn [List.length]. split; [lia|exact H2].
    + destruct (IH items Hf) as [H1 H2]. split; [lia|exact H2].
Qed.

(** [ExtractIssuesBySeverity lines severities] returns exactly one issue per
    line that mentions one of the severities (case-insensitively) and is not
    blank, and never returns an empty issue: the text after the first [:]
    when it is not blank, else the trimmed line. *)
Theorem ExtractIssuesBySeverity_one_per_line (lines severities : list string) :
  slice_len (AsciidocHelpers.ExtractIssuesBySeverity lines severities) =
    List.length (List.filter (fun l => key_line severities l && nonempty (TrimSpace l)) lines) /\
  Forall (fun x => nonempty x = true)
    (slice_elems (AsciidocHelpers.ExtractIssuesBySeverity lines severities)).
Proof.
  unfold AsciidocHelpers.ExtractIssuesBySeverity.
  exact (issues_loop_spec severities lines NilSlice ltac:(constructor)).
Qed.

(* ------------------------------------------------------------------ *)
(** ** Lines after the Summary section *)

Lemma drop_to_heading_found (lines : list string) (l : string) :
  In l lines -> is_summary_heading l = true ->
  exists x xr, drop_to_heading lines = Some (x :: xr).
Proof.
  intros Hin Hl. induction lines as [|y ys IH]; [destruct Hin|].
  cbn [drop_to_heading]. destruct (is_summary_heading y) eqn:Hy; [eauto|].
  destruct Hin as [->|Hin]; [congruence|]. exact (IH Hin).
Qed.

Lemma summaryLines_append_section (lines rest : list string) (l h : string) :
  In l lines -> is_summary_heading l = true -> is_next_section h = true ->
  summaryLines (lines ++ h :: rest) = summaryLines lines.
Proof.
  intros Hin Hl Hh. rewrite !summaryLines_section_of. unfold section_of.
  rewrite drop_to_heading_app.
  destruct (drop_to_heading_found lines l Hin Hl) as (x & xr & Hd). rewrite Hd.
  cbn [app]. rewrite take_until_app.
  destruct (index_of is_next_section xr) eqn:Hi; [reflexivity|].
  cbn [take_until]. rewrite Hh, app_nil_r, index_of_take_until, Hi. reflexivity.
Qed.

(** Appending a new section (a heading line [= ...] other than the Summary
    heading, followed by anything) after a document that has a Summary
    heading changes none of the results computed from the Summary section:
    the status counts, the per-category counts, the No Change count and the
    three item lists. *)
Theorem summary_results_ignore_appended_section (lines rest : list string) (l h : string)
    (Hin : In l lines) (Hl : is_summary_heading l = true) (Hh : is_next_section h = true) :
  let lines' := (lines ++ h :: rest)%list in
  CountAllStatusItems lines' = CountAllStatusItems lines /\
  CountStatusByCategory lines' = CountStatusByCategory lines /\
  CountNoChangeItems lines' = CountNoChangeItems lines /\
  ExtractRequiredChanges lines' = ExtractRequiredChanges lines /\
  ExtractRecommendedChanges lines' = ExtractRecommendedChanges lines /\
  ExtractAdvisoryActions lines' = ExtractAdvisoryActions lines.
Proof.
  intros lines'.
  pose proof (summaryLines_append_section lines rest l h Hin Hl Hh) as H.
  unfold lines', CountAllStatusItems, CountStatusByCategory, CountNoChangeItems,
    ExtractRequiredChanges, ExtractRecommendedChanges, ExtractAdvisoryActions, extract_items.
  rewrite H. repeat split.
Qed.

Lemma summary_results_ignore_appended_section_witness :
  In "= Summary" dup_block_doc /\ is_summary_heading "= Summary" = true /\
  is_next_section "= Appendix" = true /\
  let lines' := (dup_block_doc ++ "= Appendix" :: dup_item_block)%list in
  CountAllStatusItems lines' = CountAllStatusItems dup_block_doc /\
  CountStatusByCategory lines' = CountStatusByCategory dup_block_doc /\
  CountNoChangeItems lines' = CountNoChangeItems dup_block_doc /\
  ExtractRequiredChanges lines' = ExtractRequiredChanges dup_block_doc /\
  ExtractRecommendedChanges lines' = ExtractRecommendedChanges dup_block_doc /\
  ExtractAdvisoryActions lines' = ExtractAdvisoryActions dup_block_doc.
Proof.
  split; [left; reflexivity|]. split; [reflexivity|]. split; [reflexivity|].
  exact (summary_results_ignore_appended_section dup_block_doc dup_item_block "= Summary" "= Appendix"
           (or_introl eq_refl) eq_refl eq_refl).
Defined.

(* ------------------------------------------------------------------ *)
(** ** The item extractors of the part_007 revision *)

Lemma filter_firstn_le (p : string -> bool) (n : nat) (l : list string) :
  (List.length (List.filter p (firstn n l)) <= List.length (List.filter p l))%nat.
Proof.
  revert n. induction l as [|x l IH]; intros [|n]; cbn [firstn List.filter List.length]; try lia.
  destruct (p x); cbn [List.length]; specialize (IH n); lia.
Qed.

Lemma filter_skipn_le (p : string -> bool) (n : nat) (l : list string) :
  (List.length (List.filter p (skipn n l)) <= List.length (List.filter p l))%nat.
Proof.
  revert n. induction l as [|x l IH]; intros [|n]; cbn [skipn List.filter List.length]; try lia.
  specialize (IH n). destruct (p x); cbn [List.length]; lia.
Qed.

Lemma item_step_inv (tag legend : string) (st : ItemState) (line : string) :
  (slice_len (items (item_step tag legend st line)) <=
     slice_len (items st) + (if Contains line ITEM_END then 1 else 0))%nat /\
  (Forall item_entry_ok (slice_elems (items st)) ->
   Forall item_entry_ok (slice_elems (items (item_step tag legend st line)))).
Proof.
  destruct st as [n o b its]. unfold item_step. cbv zeta.
  destruct (Contains line ITEM_START); [cbn [items]; split; [lia|exact id]|].
  destruct (Contains line ITEM_END).
  - cbn [items]. destruct (b && nonempty n) eqn:Hb; [|split; [lia|exact id]].
    apply andb_prop in Hb as [_ Hn].
    assert (Hok : item_entry_ok (if nonempty o then n ++ ": " ++ o else n)).
    { exists n, o. split; [exact Hn|]. destruct (nonempty o); auto. }
    match goal with |- context [if nonempty ?x then slice_append _ _ else _] =>
      destruct (nonempty x) end; [|split; [lia|exact id]].
    rewrite slice_len_append. split; [lia|].
    intros Hf. unfold slice_append. cbn [slice_elems]. apply Forall_app.
    split; [exact Hf|constructor; [exact Hok|constructor]].
  - repeat match goal with |- context [if ?c then _ else _] => destruct c end;
      cbn [items]; split; try lia; exact id.
Qed.

Lemma item_run_inv (tag legend : string) (ls : list string) (st : ItemState) :
  (slice_len (items (item_run tag legend ls st)) <=
     slice_len (items st) + List.length (List.filter (fun l => Contains l ITEM_END) ls))%nat /\
  (Forall item_entry_ok (slice_elems (items st)) ->
   Forall item_entry_ok (slice_elems (items (item_run tag legend ls st)))).
Proof.
  unfold item_run. revert st. induction ls as [|l ls IH]; intros st;
    cbn [fold_left List.filter List.length]; [split; [lia|exact id]|].
  destruct (item_step_inv tag legend st l) as [H1 H2].
  destruct (IH (item_step tag legend st l)) as [H3 H4].
  split; [|intros Hf; apply H4, H2, Hf].
  destruct (Contains l ITEM_END); cbn [List.length]; lia.
Qed.

Lemma extract_items_inv (tag legend : string) (lines : list string) :
  (slice_len (extract_items tag legend lines) <=
     List.length (List.filter (fun l => Contains l ITEM_END) lines))%nat /\
  Forall item_entry_ok (slice_elems (extract_items tag legend lines)).
Proof.
  unfold extract_items, summaryLines.
  destruct (summaryStartIndex lines) as [st|]; [|split; [cbn; lia|constructor]].
  destruct (item_run_inv tag legend (firstn (summaryEndIndex lines st - st) (skipn st lines))
              item_init) as [H1 H2].
  split; [|apply H2; constructor].
  cbn [items item_init slice_len slice_elems List.length] in H1.
  pose proof (filter_firstn_le (fun l => Contains l ITEM_END) (summaryEndIndex lines st - st)
                (skipn st lines)).
  pose proof (filter_skipn_le (fun l => Contains l ITEM_END) st lines). lia.
Qed.

(** [ExtractRequiredChanges], [ExtractRecommendedChanges] and
    [ExtractAdvisoryActions] return at most one entry per [ITEM END] marker
    line of the document, and every entry is an item name that is not empty,
    alone or followed by [": "] and the observation. *)
Theorem extractors_entries_bounded (lines : list string) :
  let ends := List.length (List.filter (fun l => Contains l ITEM_END) lines) in
  ((slice_len (ExtractRequiredChanges lines) <= ends)%nat /\
   Forall item_entry_ok (slice_elems (ExtractRequiredChanges lines))) /\
  ((slice_len (ExtractRecommendedChanges lines) <= ends)%nat /\
   Forall item_entry_ok (slice_elems (ExtractRecommendedChanges lines))) /\
  ((slice_len (ExtractAdvisoryActions lines) <= ends)%nat /\
   Forall item_entry_ok (slice_elems (ExtractAdvisoryActions lines))).
Proof.
  intros ends. unfold ExtractRequiredChanges, ExtractRecommendedChanges, ExtractAdvisoryActions.
  split; [|split]; apply extract_items_inv.
Qed.

(* ------------------------------------------------------------------ *)
(** ** Placeholder items of [ParseAsciiDocExecutiveSummary] *)

Lemma fold_append_elems (f : nat -> string) (l : list nat) (s : slice) :
  slice_elems (fold_left (fun acc i => slice_append acc (f i)) l s) = (slice_elems s ++ map f l)%list.
Proof.
  revert s. induction l as [|x l IH]; intros s; cbn [fold_left map]; [rewrite app_nil_r; reflexivity|].
  rewrite IH. unfold slice_append. cbn [slice_elems]. rewrite <- app_assoc. reflexivity.
Qed.

Lemma placeholders_elems (label : string) (count : nat) (its : slice) :
  slice_elems (placeholders label count its) =
  if (slice_len its =? 0)%nat then map (fun i => label ++ " Item " ++ itoa (S i)) (seq 0 count)
  else slice_elems its.
Proof.
  unfold placeholders. destruct (Nat.eqb_spec (slice_len its) 0) as [H|H]; cbn [andb]; [|reflexivity].
  assert (He : slice_elems its = []) by (apply length_zero_iff_nil; exact H).
  destruct (Nat.ltb_spec 0 count).
  - rewrite fold_append_elems, He. reflexivity.
  - replace count with 0 by lia. rewrite He. reflexivity.
Qed.

(** The item lists of the summary: the entries of the extractor when it
    found any; otherwise exactly as many numbered placeholders
    ["Required Item 1"], ["Required Item 2"], ... as there are counted items
    of that status (and none when that count is 0); likewise for the
    recommended and advisory lists. *)
Theorem ParseLines_item_placeholders (lines : list string) :
  let c := CountAllStatusItems lines in
  slice_elems (ItemsRequired (ParseLines lines)) =
    (if (slice_len (ExtractRequiredChanges lines) =? 0)%nat
     then map (fun i => "Required" ++ " Item " ++ itoa (S i)) (seq 0 (required c))
     else slice_elems (ExtractRequiredChanges lines)) /\
  slice_elems (ItemsRecommended (ParseLines lines)) =
    (if (slice_len (ExtractRecommendedChanges lines) =? 0)%nat
     then map (fun i => "Recommended" ++ " Item " ++ itoa (S i)) (seq 0 (recommended c))
     else slice_elems (ExtractRecommendedChanges lines)) /\
  slice_elems (ItemsAdvisory (ParseLines lines)) =
    (if (slice_len (ExtractAdvisoryActions lines) =? 0)%nat
     then map (fun i => "Advisory" ++ " Item " ++ itoa (S i)) (seq 0 (advisory c))
     else slice_elems (ExtractAdvisoryActions lines)).
Proof.
  intros c.
  change (ItemsRequired (ParseLines lines)) with
    (placeholders "Required" (required c) (ExtractRequiredChanges lines)).
  change (ItemsRecommended (ParseLines lines)) with
    (placeholders "Recommended" (recommended c) (ExtractRecommendedChanges lines)).
  change (ItemsAdvisory (ParseLines lines)) with
    (placeholders "Advisory" (advisory c) (ExtractAdvisoryActions lines)).
  rewrite !placeholders_elems. repeat split.
Qed.

(* ------------------------------------------------------------------ *)
(** ** [categoryItemCount] and [m[k]++] *)

Lemma categoryItemCount_insert (m : gmap string nat) (k cat : string) (x : nat) :
  m !! k = None ->
  categoryItemCount (<[k := x]> m) cat =
    (categoryItemCount m cat + (if Contains k cat then x else 0))%nat.
Proof.
  intros Hk. unfold categoryItemCount. rewrite map_fold_insert_L; [|intros; destruct_ifs; lia|exact Hk].
  destruct (Contains k cat); lia.
Qed.

(** Counting one more item of a category key [k] ([m[k]++] in
    [CountStatusByCategory]) raises [categoryItemCount m category] by one
    exactly when [k] contains [category], and leaves it unchanged
    otherwise, whether or not [k] was in the map before. *)
Theorem categoryItemCount_map_incr (m : gmap string nat) (k cat : string) :
  categoryItemCount (map_incr m k) cat =
    (categoryItemCount m cat + (if Contains k cat then 1 else 0))%nat.
Proof.
  unfold map_incr. destruct (m !! k) as [v|] eqn:Hk; cbn [default].
  - rewrite <- (insert_delete_eq m k (v + 1)).
    rewrite <- (insert_id m k v Hk) at 2. rewrite <- (insert_delete_eq m k v).
    rewrite !categoryItemCount_insert by apply lookup_delete_eq.
    destruct (Contains k cat); lia.
  - rewrite categoryItemCount_insert by exact Hk. reflexivity.
Qed.

(* ------------------------------------------------------------------ *)
(** ** [ExtractCategoryDescription] of the part_007 revision *)

Lemma find_description_spec (w : list string) :
  find_description w = "" \/
  (In (find_description w) w /\ nonempty (find_description w) = true /\
   HasPrefix (find_description w) "*" = false /\ HasPrefix (find_description w) "#" = false /\
   Contains (find_description w) "%" = false).
Proof.
  induction w as [|l w IH]; cbn [find_description]; [left; reflexivity|].
  destruct (String.eqb_spec l "") as [_|Hl].
  - destruct IH as [H|(H1 & H2)]; [left; exact H|right; split; [right; exact H1|exact H2]].
  - destruct (HasPrefix l "*" || HasPrefix l "#" || Contains l "%") eqn:E.
    + destruct IH as [H|(H1 & H2)]; [left; exact H|right; split; [right; exact H1|exact H2]].
    + apply orb_false_elim in E as [E E3]. apply orb_false_elim in E as [E1 E2].
      right. split; [left; reflexivity|]. split; [|split; [exact E1|split; assumption]].
      unfold nonempty. apply negb_true_iff, String.eqb_neq, Hl.
Qed.

(** [ExtractCategoryDescription lines categoryName] is either empty or a
    non-empty line found among the 9 lines following a line that contains
    [categoryName], that starts with neither [*] nor [#] and contains no
    [%]. *)
Theorem ExtractCategoryDescription_shape (lines : list string) (categoryName : string) :
  let d := ExtractCategoryDescription lines categoryName in
  d = "" \/
  (exists pre l post, lines = (pre ++ l :: post)%list /\ Contains l categoryName = true /\
     In d (firstn 9 post)) /\
  nonempty d = true /\ HasPrefix d "*" = false /\ HasPrefix d "#" = false /\
  Contains d "%" = false.
Proof.
  intros d. unfold d. clear d.
  induction lines as [|l ls IH]; cbn [ExtractCategoryDescription]; [left; reflexivity|].
  assert (Hrest : forall r, r = ExtractCategoryDescription ls categoryName ->
    r = "" \/
    (exists pre l' post, (l :: ls)%list = (pre ++ l' :: post)%list /\
       Contains l' categoryName = true /\ In r (firstn 9 post)) /\
    nonempty r = true /\ HasPrefix r "*" = false /\ HasPrefix r "#" = false /\
    Contains r "%" = false).
  { intros r ->. destruct IH as [H|((pre & l' & post & E & H1 & H2) & H3)]; [left; exact H|].
    right. split; [|exact H3]. exists (l :: pre), l', post. split; [rewrite E; reflexivity|split; assumption]. }
  destruct (Contains l categoryName) eqn:Hc; [|apply Hrest; reflexivity].
  destruct (nonempty (find_description (firstn 9 ls))) eqn:Hn; [|apply Hrest; reflexivity].
  destruct (find_description_spec (firstn 9 ls)) as [H|(H1 & H2)].
  - rewrite H in Hn. discriminate.
  - right. split; [|exact H2]. exists [], l, ls. split; [reflexivity|split; assumption].
Qed.

Lemma enhancedItemExtraction_keyword_nonempty_witness :
  let lines := ["Note: there is a security risk here"; "Please enable monitoring"] in
  (exists l, In l lines /\ key_line required_keywords l = true) /\
  (exists l, In l lines /\ key_line recommended_keywords l = true) /\
  (0 < slice_len (fst (fst (enhancedItemExtraction lines))))%nat /\
  (0 < slice_len (snd (fst (enhancedItemExtraction lines))))%nat.
Proof.
  intros lines.
  assert (H1 : exists l, In l lines /\ key_line required_keywords l = true)
    by (exists "Note: there is a security risk here"; split; [left; reflexivity|vm_compute; reflexivity]).
  assert (H2 : exists l, In l lines /\ key_line recommended_keywords l = true)
    by (exists "Please enable monitoring"; split; [right; left; reflexivity|vm_compute; reflexivity]).
  split; [exact H1|]. split; [exact H2|].
  split; [exact (proj1 (enhancedItemExtraction_keyword_nonempty lines) H1)
         |exact (proj2 (enhancedItemExtraction_keyword_nonempty lines) H2)].
Defined.


(* ------------------------------------------------------------------ *)
(** ** Counters of [CountAllStatusItems] and [CountNoChangeItems] *)

Lemma count_color_total (line : string) (c : StatusCounts) :
  (counted_items (count_color line c) + notApplicable (count_color line c) =
   counted_items c + notApplicable c + (if status_tagged line then 1 else 0))%nat.
Proof.
  destruct c as [r rc a n na]. unfold count_color, status_tagged, counted_items. cbn.
  destruct (Contains line RED), (Contains line YELLOW), (Contains line BLUE),
    (Contains line GREEN), (Contains line GRAY); cbn; lia.
Qed.

Lemma count_loop_total (ls : list string) (i t : bool) (c : StatusCounts) :
  (counted_items (count_loop ls i t c) + notApplicable (count_loop ls i t c) <=
   counted_items c + notApplicable c + List.length (List.filter status_tagged ls))%nat.
Proof.
  revert i t c. induction ls as [|l ls IH]; intros i t c; cbn [count_loop List.filter]; [lia|].
  destruct (status_tagged l) eqn:Ht; cbn [List.length]; destruct_ifs;
    try lia;
    match goal with |- context [count_loop ls ?i' ?t' ?c'] =>
      pose proof (IH i' t' c') as H end;
    try rewrite count_color_total, Ht in H; lia.
Qed.

Lemma nochange_loop_le (ls : list string) (i t : bool) (n : nat) :
  (nochange_loop ls i t n <= n + List.length (List.filter (fun l => Contains l GREEN) ls))%nat.
Proof.
  revert i t n. induction ls as [|l ls IH]; intros i t n; cbn [nochange_loop List.filter]; [lia|].
  destruct (Contains l GREEN) eqn:Hg; cbn [List.length];
    repeat match goal with |- context [if ?b then _ else _] => destruct b eqn:? end;
    match goal with |- context [nochange_loop ls ?i' ?t' ?n'] =>
      pose proof (IH i' t' n') as H end;
    lia.
Qed.

Lemma summaryLines_filter_le (p : string -> bool) (lines sec : list string) :
  summaryLines lines = Some sec ->
  (List.length (List.filter p sec) <= List.length (List.filter p lines))%nat.
Proof.
  unfold summaryLines. destruct (summaryStartIndex lines) as [st|]; [|discriminate].
  intros H. injection H as <-.
  pose proof (filter_firstn_le p (summaryEndIndex lines st - st) (skipn st lines)).
  pose proof (filter_skipn_le p st lines). lia.
Qed.

(** Each line is counted at most once: the five counters of
    [CountAllStatusItems] add up to at most the number of lines of the
    document carrying a status color tag, and [CountNoChangeItems] is at
    most the number of lines carrying the green tag. *)
Theorem status_counts_bounded_by_tagged_lines (lines : list string) :
  let c := CountAllStatusItems lines in
  (required c + recommended c + advisory c + noChange c + notApplicable c <=
     List.length (List.filter status_tagged lines))%nat /\
  (CountNoChangeItems lines <= List.length (List.filter (fun l => Contains l GREEN) lines))%nat.
Proof.
  intros c. unfold c, CountAllStatusItems, CountNoChangeItems.
  destruct (summaryLines lines) as [sec|] eqn:Hs; [|cbn; lia].
  pose proof (count_loop_total sec false false zero_counts) as H1.
  pose proof (nochange_loop_le sec false false 0) as H2.
  pose proof (summaryLines_filter_le status_tagged lines sec Hs).
  pose proof (summaryLines_filter_le (fun l => Contains l GREEN) lines sec Hs).
  unfold counted_items in H1. cbn [required recommended advisory noChange notApplicable zero_counts] in H1.
  split; lia.
Qed.

(* ------------------------------------------------------------------ *)
(** ** [CountAllStatusItems] stops at the end of the first table *)

Lemma count_loop_in_table (X Z : list string) (t : string) (i : bool) (c : StatusCounts) :
  List.filter table_delim X = [] -> table_delim t = true ->
  count_loop (X ++ t :: Z) i true c = count_loop X i true c.
Proof.
  intros HX Ht. revert i c. induction X as [|x X IH]; intros i c.
  - unfold table_delim in Ht. apply andb_prop in Ht as [Ht Hn2].
    apply andb_prop in Ht as [Hd Hn1]. apply negb_true_iff in Hn1, Hn2.
    cbn [app count_loop]. rewrite Hn1, Hn2, Hd. reflexivity.
  - cbn [List.filter] in HX. destruct (table_delim x) eqn:Hx; [discriminate|].
    specialize (IH HX). cbn [app count_loop].
    destruct (Contains x ITEM_START) eqn:H1; [apply IH|].
    destruct (Contains x ITEM_END) eqn:H2; [apply IH|].
    destruct (Contains x "|===") eqn:H3.
    { unfold table_delim in Hx. rewrite H1, H2, H3 in Hx. discriminate. }
    cbn [andb negb orb]. destruct_ifs; apply IH.
Qed.

Lemma count_loop_close_table (X Z : list string) (t : string) (i : bool) (c : StatusCounts) :
  List.length (List.filter table_delim X) = 1%nat -> table_delim t = true ->
  count_loop (X ++ t :: Z) i false c = count_loop X i false c.
Proof.
  intros HX Ht. revert i c. induction X as [|x X IH]; intros i c; [discriminate|].
  cbn [List.filter] in HX. cbn [app count_loop].
  destruct (table_delim x) eqn:Hx.
  - cbn [List.length] in HX. injection HX as HX. apply length_zero_iff_nil in HX.
    unfold table_delim in Hx. apply andb_prop in Hx as [Hx Hn2].
    apply andb_prop in Hx as [Hd Hn1]. apply negb_true_iff in Hn1, Hn2.
    rewrite Hn1, Hn2, Hd. cbn [andb negb]. apply count_loop_in_table; assumption.
  - specialize (IH HX).
    destruct (Contains x ITEM_START) eqn:H1; [apply IH|].
    destruct (Contains x ITEM_END) eqn:H2; [apply IH|].
    destruct (Contains x "|===") eqn:H3.
    { unfold table_delim in Hx. rewrite H1, H2, H3 in Hx. discriminate. }
    cbn [andb negb orb]. destruct_ifs; apply IH.
Qed.

Lemma drop_to_heading_none (pre : list string) :
  forallb (fun l => negb (is_summary_heading l)) pre = true -> drop_to_heading pre = None.
Proof.
  induction pre as [|l pre IH]; intros H; [reflexivity|].
  cbn [forallb] in H. apply andb_prop in H as [H1 H2]. apply negb_true_iff in H1.
  cbn [drop_to_heading]. rewrite H1. exact (IH H2).
Qed.

Lemma summaryLines_after_prefix (pre W : list string) :
  forallb (fun l => negb (is_summary_heading l)) pre = true ->
  summaryLines (pre ++ "= Summary" :: W) = Some ("= Summary" :: take_until is_next_section W).
Proof.
  intros Hpre. rewrite summaryLines_section_of. unfold section_of.
  rewrite drop_to_heading_app, (drop_to_heading_none pre Hpre). reflexivity.
Qed.

(** [CountAllStatusItems] stops at the line closing the first table of the
    Summary section: whatever follows that line ([Y]) is never counted, even
    rows of a second table in the same section.  Here the Summary heading is
    preceded by no other Summary heading, [X] holds exactly one table
    delimiter (the opening one) and no section heading, and [t] is a table
    delimiter that is not a section heading. *)
Theorem CountAllStatusItems_stops_at_table_end (pre X Y : list string) (t : string)
    (Hpre : forallb (fun l => negb (is_summary_heading l)) pre = true)
    (HX : forallb (fun l => negb (is_next_section l)) X = true)
    (Hone : List.length (List.filter table_delim X) = 1%nat)
    (Ht : table_delim t = true) (Htn : is_next_section t = false) :
  CountAllStatusItems (pre ++ "= Summary" :: X ++ t :: Y)%list =
  CountAllStatusItems (pre ++ "= Summary" :: X)%list.
Proof.
  unfold CountAllStatusItems. rewrite !summaryLines_after_prefix by exact Hpre.
  rewrite take_until_app, (index_of_none _ _ HX). cbn [take_until]. rewrite Htn.
  rewrite (index_of_take_until is_next_section X), (index_of_none _ _ HX).
  change ("= Summary" :: (X ++ t :: take_until is_next_section Y))%list
    with (("= Summary" :: X) ++ t :: take_until is_next_section Y)%list.
  apply count_loop_close_table; [|exact Ht].
  cbn [List.filter]. replace (table_delim "= Summary") with false by reflexivity. exact Hone.
Qed.

Lemma CountAllStatusItems_stops_at_table_end_witness :
  let X := ["|==="; "|Cluster Config"; "|<<A>>"; "|{set:cellbgcolor:#FF0000}"] in
  let Y := ["|==="; "|<<B>>"; "|{set:cellbgcolor:#FEFE20}"; "|==="] in
  forallb (fun l => negb (is_summary_heading l)) ["= Report"] = true /\
  forallb (fun l => negb (is_next_section l)) X = true /\
  List.length (List.filter table_delim X) = 1%nat /\
  table_delim "|===" = true /\ is_next_section "|===" = false /\
  CountAllStatusItems (["= Report"] ++ "= Summary" :: X ++ "|===" :: Y)%list =
  CountAllStatusItems (["= Report"] ++ "= Summary" :: X)%list.
Proof.
  intros X Y.
  assert (H1 : forallb (fun l => negb (is_summary_heading l)) ["= Report"] = true) by reflexivity.
  assert (H2 : forallb (fun l => negb (is_next_section l)) X = true) by reflexivity.
  assert (H3 : List.length (List.filter table_delim X) = 1%nat) by reflexivity.
  assert (H4 : table_delim "|===" = true) by reflexivity.
  assert (H5 : is_next_section "|===" = false) by reflexivity.
  split; [exact H1|]. split; [exact H2|]. split; [exact H3|]. split; [exact H4|].
  split; [exact H5|].
  exact (CountAllStatusItems_stops_at_table_end ["= Report"] X Y "|===" H1 H2 H3 H4 H5).
Defined.
